(** * Network-lock keys and their JSON projection

    A shallow embedding of the key model of the [tka] package
    (KeyKind, Key, its static validation, identifiers and JSON form), of
    [tkatype.KeyID] and of the [jsonoutput] printer of the network-lock log,
    together with the properties of these functions. *)

From Stdlib Require Import ZArith NArith Lia List Ascii String Strings.Byte.
From Stdlib Require Import DecimalString DecimalN DecimalFacts.
From stdpp Require Import base option list fin_maps gmap strings sorting.

Set Warnings "-register-all".
Local Open Scope N_scope.

(** ** Go values

    A Go string is a sequence of bytes; [string] holds one byte per
    character.  A slice or map value is either nil or holds its elements,
    and the two are told apart: [None] is the nil value. *)

Abbreviation slice A := (option (list A)) (only parsing).
Abbreviation gomap V := (option (gmap string V)) (only parsing).

Definition len {A} (s : slice A) : nat := length (default [] s).

(** [uint] and [int] are the 64-bit machine integers of the platforms the
    program is built for; arithmetic wraps around. *)
Definition uint_wrap (z : Z) : N := Z.to_N (z mod 2 ^ 64).
Definition int_wrap (z : Z) : Z := ((z + 2 ^ 63) mod 2 ^ 64 - 2 ^ 63)%Z.
Definition uint_add (a b : N) : N := (a + b) mod 2 ^ 64.
Definition int_add (a b : Z) : Z := int_wrap (a + b).
Definition uint_ok (n : N) : Prop := n < 2 ^ 64.

(** [len(s)] of a string, an [int]. *)
Definition strlen (s : string) : Z := Z.of_nat (String.length s).

(** [make([]byte, n)] and the built-in [copy(dst, src)], which overwrites
    the first [min(len(dst), len(src))] elements of [dst]. *)
Definition make_bytes (n : nat) : list byte := replicate n x00.
Definition copy {A} (dst src : list A) : list A :=
  take (length dst) src ++ drop (length src) dst.

(** ** Errors

    An [error] is nil or an error value.  Errors made by [fmt.Errorf] and
    [errors.New] are kept as the format string and its operands; an operand
    formatted with [%w] is the wrapped error. *)

Definition KeyKind := N.

Inductive fmt_arg :=
  | ArgString (s : string)
  | ArgUint (n : N)
  | ArgInt (z : Z)
  | ArgKeyKind (k : KeyKind)
  | ArgBytes (b : list byte)
  | ArgUpdate (hash : list byte) (change : string) (raw : slice byte).

Inductive Error :=
  | ErrorsNew (msg : string)
  | Errorf (format : string) (args : list fmt_arg)
  | ErrorfWrap (format : string) (args : list fmt_arg) (wrapped : Error)
  | HexErrLength
  | HexInvalidByteError (c : ascii)
  | JSONUnmarshalTypeError (value : string) (type : string)
  | ExternalError (code : N).

Abbreviation error := (option Error) (only parsing).

(** A call either returns or panics with an error value. *)
Inductive outcome (A : Type) :=
  | Returned (a : A)
  | Panicked (e : Error).

Arguments Returned {A} a.
Arguments Panicked {A} e.


(** ** encoding/hex and the [%x] verb

    [fmt]'s [%x] applied to a byte slice and [hex.EncodeToString] both
    write two lower-case digits per byte. *)

Module hex.

Definition hextable : string := "0123456789abcdef".

Definition digit (n : N) : ascii :=
  default "0"%char (String.get (N.to_nat n) hextable).

Definition EncodeToString (src : list byte) : string :=
  fold_right
    (fun b acc =>
       String (digit (Byte.to_N b / 16)) (String (digit (Byte.to_N b mod 16)) acc))
    EmptyString src.

(** [reverseHexTable]: the value of a hexadecimal digit of either case. *)
Definition fromHexChar (c : ascii) : option N :=
  let n := N_of_ascii c in
  if (48 <=? n) && (n <=? 57) then Some (n - 48)
  else if (97 <=? n) && (n <=? 102) then Some (n - 87)
  else if (65 <=? n) && (n <=? 70) then Some (n - 55)
  else None.

Definition mkbyte (hi lo : N) : byte :=
  default x00 (Byte.of_N (hi * 16 + lo)).

(** [Decode] reads the source two characters at a time; an invalid
    character is reported before an odd length, and the bytes decoded so far
    are returned with the error. *)
Fixpoint Decode (src : string) : list byte * error :=
  match src with
  | EmptyString => ([], None)
  | String p EmptyString =>
      match fromHexChar p with
      | None => ([], Some (HexInvalidByteError p))
      | Some _ => ([], Some HexErrLength)
      end
  | String p (String q rest) =>
      match fromHexChar p, fromHexChar q with
      | None, _ => ([], Some (HexInvalidByteError p))
      | Some _, None => ([], Some (HexInvalidByteError q))
      | Some a, Some b =>
          let '(dst, err) := Decode rest in (mkbyte a b :: dst, err)
      end
  end.

Definition DecodeString (s : string) : slice byte * error :=
  let '(dst, err) := Decode s in (Some dst, err).

End hex.

(** [fmt.Sprintf("tlpub:%x", k)]. *)
Definition Sprintf_tlpub_x (k : list byte) : string :=
  "tlpub:" +:+ hex.EncodeToString k.

(** [strings.HasPrefix] and the slice expression [s[n:]]. *)
Definition HasPrefix (s prefix : string) : bool := String.prefix prefix s.
Definition string_from (n : nat) (s : string) : string :=
  String.substring n (String.length s - n) s.

(** ** unicode/utf8 *)

Module utf8.

Definition RuneError : N := 65533.

(** The table [first] with [acceptRanges]: for a leading byte, the length
    of the sequence and the range allowed for its second byte. *)
Definition first (s0 : N) : option (nat * N * N) :=
  if s0 <? 194 then None
  else if s0 <? 224 then Some (2%nat, 128, 191)
  else if s0 =? 224 then Some (3%nat, 160, 191)
  else if s0 <? 237 then Some (3%nat, 128, 191)
  else if s0 =? 237 then Some (3%nat, 128, 159)
  else if s0 <? 240 then Some (3%nat, 128, 191)
  else if s0 =? 240 then Some (4%nat, 144, 191)
  else if s0 <? 244 then Some (4%nat, 128, 191)
  else if s0 =? 244 then Some (4%nat, 128, 143)
  else None.

Definition cont (c : N) : bool := (128 <=? c) && (c <=? 191).

Definition byte_at (i : nat) (s : string) : option N :=
  N_of_ascii <$> String.get i s.

Definition DecodeRuneInString (s : string) : N * nat :=
  match byte_at 0 s with
  | None => (RuneError, 0%nat)
  | Some s0 =>
      if s0 <? 128 then (s0, 1%nat)
      else
        match first s0 with
        | None => (RuneError, 1%nat)
        | Some (sz, lo, hi) =>
            if (String.length s <? sz)%nat then (RuneError, 1%nat)
            else
              let s1 := default 0 (byte_at 1 s) in
              if (s1 <? lo) || (hi <? s1) then (RuneError, 1%nat)
              else if (sz <=? 2)%nat then
                ((s0 mod 32) * 64 + s1 mod 64, 2%nat)
              else
                let s2 := default 0 (byte_at 2 s) in
                if negb (cont s2) then (RuneError, 1%nat)
                else if (sz <=? 3)%nat then
                  ((s0 mod 16) * 4096 + (s1 mod 64) * 64 + s2 mod 64, 3%nat)
                else
                  let s3 := default 0 (byte_at 3 s) in
                  if negb (cont s3) then (RuneError, 1%nat)
                  else
                    ((s0 mod 8) * 262144 + (s1 mod 64) * 4096
                     + (s2 mod 64) * 64 + s3 mod 64, 4%nat)
        end
  end.

(** Whether a rune starts at the head of [s]: not the one-byte error. *)
Definition rune_ok (s : string) : bool :=
  let '(r, size) := DecodeRuneInString s in
  negb ((r =? RuneError) && (size =? 1)%nat).

Definition rune_size (s : string) : nat := (DecodeRuneInString s).2.

(** [ValidString]: the string is a sequence of well-formed runes.  [skip]
    counts the bytes that remain of the rune being read. *)
Fixpoint valid_from (skip : nat) (s : string) : bool :=
  match s with
  | EmptyString => true
  | String c t =>
      match skip with
      | S n => valid_from n t
      | O => rune_ok s && valid_from (rune_size s - 1) t
      end
  end.

Definition ValidString (s : string) : bool := valid_from 0 s.

End utf8.


(** ** encoding/json

    The library is modelled on JSON values: a byte slice that holds the
    text of a JSON value stands for that value, a nil byte slice for none.
    The white space, the escapes and the layout of the text are the
    library's own and are not part of the model; what the library does to
    the values is: strings are coerced to valid UTF-8 when they are
    written, map keys are written in sorted order, a member of an object is
    matched to a field by its exact name or else by its folded name, and
    members without a field are skipped.  The decoder records a type error
    and decodes on, and [Unmarshal] reports one of the errors met; the
    model stops at the first one. *)

Module json.

Inductive Value :=
  | Null
  | Bool (b : bool)
  | Number (lit : string)
  | Str (s : string)
  | Array (elems : list Value)
  | Object (members : list (string * Value)).

Abbreviation text := (option Value) (only parsing).

Definition kind_name (v : Value) : string :=
  match v with
  | Null => "null" | Bool _ => "bool" | Number _ => "number"
  | Str _ => "string" | Array _ => "array" | Object _ => "object"
  end.

(** A byte that starts no rune is replaced by U+FFFD. *)
Definition replacement : string :=
  String (ascii_of_N 239) (String (ascii_of_N 191) (String (ascii_of_N 189) EmptyString)).

Fixpoint coerce_from (skip : nat) (s : string) : string :=
  match s with
  | EmptyString => EmptyString
  | String c t =>
      match skip with
      | S n => String c (coerce_from n t)
      | O =>
          if utf8.rune_ok s then String c (coerce_from (utf8.rune_size s - 1) t)
          else replacement +:+ coerce_from 0 t
      end
  end.

Definition coerce (s : string) : string := coerce_from 0 s.

(** *** Marshal *)

Definition Marshal_string (s : string) : text * error := (Some (Str (coerce s)), None).

Definition Marshal_uint (n : N) : text * error :=
  (Some (Number (NilZero.string_of_uint (N.to_uint n))), None).

(** A value with a [MarshalText] method is written as the string of its
    text. *)
Definition Marshal_text (r : string * error) : text * error :=
  match r with
  | (_, Some e) => (None, Some e)
  | (t, None) => Marshal_string t
  end.

Definition key_le (a b : string * string) : Prop := String.leb a.1 b.1 = true.

#[global] Instance key_le_dec : RelDecision key_le.
Proof. intros a b. unfold key_le. apply _. Defined.

(** A nil map is written as null, another one as an object with its keys
    in sorted order. *)
Definition Marshal_map (m : gomap string) : text * error :=
  match m with
  | None => (Some Null, None)
  | Some m =>
      (Some (Object ((fun kv => (coerce kv.1, Str (coerce kv.2)))
                       <$> merge_sort key_le (map_to_list m))), None)
  end.

(** The fields of a struct in order; the first error ends the encoding,
    and so does a marshaler that returns no text. *)
Fixpoint Marshal_fields (fields : list (string * (text * error)))
  : list (string * Value) * error :=
  match fields with
  | [] => ([], None)
  | (name, (Some v, None)) :: rest =>
      let '(ms, err) := Marshal_fields rest in ((name, v) :: ms, err)
  | (name, (_, Some e)) :: rest => ([], Some e)
  | (name, (None, None)) :: rest =>
      ([], Some (ErrorsNew "unexpected end of JSON input"))
  end.

Definition Marshal_struct (fields : list (string * (text * error))) : text * error :=
  match Marshal_fields fields with
  | (ms, None) => (Some (Object ms), None)
  | (_, Some e) => (None, Some e)
  end.

(** *** Unmarshal *)

Definition Unmarshal_string (b : Value) (s : string) : string * error :=
  match b with
  | Str t => (t, None)
  | Null => (s, None)
  | _ => (s, Some (JSONUnmarshalTypeError (kind_name b) "string"))
  end.

(** [strconv.ParseUint(lit, 10, 64)]. *)
Definition ParseUint (lit : string) : option N :=
  match NilZero.uint_of_string lit with
  | Some d => if N.of_uint d <? 2 ^ 64 then Some (N.of_uint d) else None
  | None => None
  end.

Definition Unmarshal_uint (b : Value) (n : N) : N * error :=
  match b with
  | Null => (n, None)
  | Number lit =>
      match ParseUint lit with
      | Some v => (v, None)
      | None => (n, Some (JSONUnmarshalTypeError ("number " +:+ lit) "uint"))
      end
  | _ => (n, Some (JSONUnmarshalTypeError (kind_name b) "uint"))
  end.

(** A target with an [UnmarshalText] method takes the content of a string;
    null leaves it as it is. *)
Definition Unmarshal_text {T} (UnmarshalText : T -> string -> T * error)
    (b : Value) (x : T) : T * error :=
  match b with
  | Null => (x, None)
  | Str t => UnmarshalText x t
  | _ => (x, Some (JSONUnmarshalTypeError (kind_name b) "text"))
  end.

(** null sets a map to nil; an object is decoded into the map, which is
    made when it is nil, one member after the other. *)
Definition Unmarshal_map (b : Value) (m : gomap string) : gomap string * error :=
  match b with
  | Null => (None, None)
  | Object members =>
      let '(m', err) :=
        fold_left
          (fun (acc : gmap string string * error) (kv : string * Value) =>
             match acc with
             | (_, Some _) => acc
             | (m, None) =>
                 let '(s, err) := Unmarshal_string kv.2 EmptyString in
                 (<[kv.1 := s]> m, err)
             end)
          members (default ∅ m, None) in
      (Some m', err)
  | _ => (m, Some (JSONUnmarshalTypeError (kind_name b) "map[string]string"))
  end.

(** [foldName]: ASCII letters are put in upper case, and the two runes
    outside ASCII that fold to an ASCII letter, U+017F and U+212A, become
    [S] and [K].  Every other rune outside ASCII folds to a rune outside
    ASCII: the model keeps its bytes, which compares the same with the
    names of fields, all ASCII. *)
Fixpoint fold_name (s : string) : string :=
  match s with
  | EmptyString => EmptyString
  | String c t =>
      let n := N_of_ascii c in
      if (97 <=? n) && (n <=? 122) then String (ascii_of_N (n - 32)) (fold_name t)
      else
        match n, t with
        | 197, String c1 t1 =>
            if N_of_ascii c1 =? 191 then String "S" (fold_name t1)
            else String c (fold_name t)
        | 226, String c1 (String c2 t2) =>
            if (N_of_ascii c1 =? 132) && (N_of_ascii c2 =? 170)
            then String "K" (fold_name t2)
            else String c (fold_name t)
        | _, _ => String c (fold_name t)
        end
  end.

Fixpoint index_of (f : string -> bool) (l : list string) : option nat :=
  match l with
  | [] => None
  | x :: l' => if f x then Some 0%nat else S <$> index_of f l'
  end.

Definition field_index (fields : list string) (name : string) : option nat :=
  match index_of (String.eqb name) fields with
  | Some i => Some i
  | None => index_of (fun f => String.eqb (fold_name f) (fold_name name)) fields
  end.

(** Decoding into a struct: null leaves it as it is; the members of an
    object are stored into their fields in the order of the text. *)
Definition Unmarshal_struct {T} (fields : list string)
    (store : nat -> Value -> T -> T * error) (b : Value) (x : T) : T * error :=
  match b with
  | Null => (x, None)
  | Object members =>
      fold_left
        (fun (acc : T * error) (kv : string * Value) =>
           match acc with
           | (_, Some _) => acc
           | (x, None) =>
               match field_index fields kv.1 with
               | Some i => store i kv.2 x
               | None => (x, None)
               end
           end)
        members (x, None)
  | _ => (x, Some (JSONUnmarshalTypeError (kind_name b) "struct"))
  end.

End json.

(** ** tkatype.KeyID *)

Module tkatype.

Definition MarshalJSON (k : slice byte) : json.text * error :=
  if (len k =? 0)%nat then (Some json.Null, None)
  else json.Marshal_string (Sprintf_tlpub_x (default [] k)).

(** [UnmarshalJSON] writes through its receiver [k]; the model returns the
    new value of [*k]. *)
Definition UnmarshalJSON (k : slice byte) (b : json.Value) : slice byte * error :=
  match b with
  | json.Null => (Some [], None)
  | _ =>
      match json.Unmarshal_string b EmptyString with
      | (_, Some err) =>
          (k, Some (ErrorfWrap
                      "KeyID: cannot unmarshal non-string, non-null value: %w" [] err))
      | (s, None) =>
          let prefix := "tlpub:" in
          if negb (HasPrefix s prefix) then
            (k, Some (Errorf "KeyID: missing required prefix %q in string %q"
                        [ArgString prefix; ArgString s]))
          else
            let hexData := string_from (String.length prefix) s in
            match hex.DecodeString hexData with
            | (_, Some err) =>
                (k, Some (ErrorfWrap "KeyID: invalid hex encoding in string %q: %w"
                            [ArgString s] err))
            | (decoded, None) => (decoded, None)
            end
      end
  end.

End tkatype.

(** ** KeyKind *)

Module tka.

Definition KeyInvalid : KeyKind := 0.
Definition Key25519 : KeyKind := 1.

(** Decimal rendering of [%d]. *)
Definition decimal (n : N) : string := NilZero.string_of_uint (N.to_uint n).

Definition KeyKind_String (k : KeyKind) : string :=
  if k =? KeyInvalid then "invalid"
  else if k =? Key25519 then "25519"
  else "Key?<" +:+ decimal k +:+ ">".

Definition KeyKind_MarshalText (k : KeyKind) : string * error :=
  (KeyKind_String k, None).

(** [UnmarshalText] writes through its receiver: the model returns the new
    value of [*k], which is the old one when an error is returned. *)
Definition KeyKind_UnmarshalText (k : KeyKind) (b : string) : KeyKind * error :=
  if String.eqb b (KeyKind_String KeyInvalid) then (KeyInvalid, None)
  else if String.eqb b (KeyKind_String Key25519) then (Key25519, None)
  else (k, Some (Errorf "unrecognised key kind: %q" [ArgString b])).

(** ** Key *)

Record Key := mkKey {
  Kind : KeyKind;
  Votes : N;
  Public : slice byte;
  Meta : gomap string
}.

Definition Clone (k : Key) : Key :=
  let out := k in
  let out :=
    match Public k with
    | Some p => mkKey (Kind out) (Votes out)
                  (Some (copy (make_bytes (length p)) p)) (Meta out)
    | None => out
    end in
  let out :=
    match Meta k with
    | Some m =>
        mkKey (Kind out) (Votes out) (Public out)
          (Some (fold_left (fun acc kv => <[kv.1 := kv.2]> acc)
                   (map_to_list m) ∅))
    | None => out
    end in
  out.

(** [KeyID] is [tkatype.KeyID], a byte slice. *)
Definition ID (k : Key) : slice byte * error :=
  if Kind k =? Key25519 then (Public k, None)
  else (None, Some (Errorf "unknown key kind: %v" [ArgKeyKind (Kind k)])).

(** [MustID] panics with the error of [ID]. *)
Definition MustID (k : Key) : outcome (slice byte) :=
  let '(id, err) := ID k in
  match err with
  | Some err => Panicked err
  | None => Returned id
  end.

Definition Ed25519 (k : Key) : slice byte * error :=
  if Kind k =? Key25519 then (Public k, None)
  else (None, Some (Errorf "key is of type %v, not ed25519" [ArgKeyKind (Kind k)])).

Definition maxMetaBytes : N := 512.

(** The loop [for k, v := range k.Meta { metaBytes += uint(len(k) + len(v)) }]
    over the entries of the map (none for a nil map). *)
Definition metaBytes (m : gomap string) : N :=
  fold_left (fun acc kv => uint_add acc (uint_wrap (int_add (strlen kv.1) (strlen kv.2))))
    (map_to_list (default ∅ m)) 0.

Definition StaticValidate (k : Key) : error :=
  if 4096 <? Votes k then
    Some (Errorf "excessive key weight: %d > 4096" [ArgUint (Votes k)])
  else if Votes k =? 0 then
    Some (ErrorsNew "key votes must be non-zero")
  else
    let metaBytes := metaBytes (Meta k) in
    if maxMetaBytes <? metaBytes then
      Some (Errorf "key metadata too big (%d > %d)"
              [ArgUint metaBytes; ArgUint maxMetaBytes])
    else if Kind k =? Key25519 then None
    else Some (Errorf "unrecognized key kind: %v" [ArgKeyKind (Kind k)]).

(** *** The JSON form of a Key *)

(** [jsonPublicKey] is a byte slice with its own JSON methods. *)
Definition jsonPublicKey_MarshalJSON (k : slice byte) : json.text * error :=
  if (len k =? 0)%nat then (Some json.Null, None)
  else json.Marshal_string (Sprintf_tlpub_x (default [] k)).

Definition jsonPublicKey_UnmarshalJSON (k : slice byte) (b : json.Value)
  : slice byte * error :=
  match b with
  | json.Null => (Some [], None)
  | _ =>
      match json.Unmarshal_string b EmptyString with
      | (_, Some err) =>
          (k, Some (ErrorfWrap
                      "KeyID: cannot unmarshal non-string, non-null value: %w" [] err))
      | (s, None) =>
          let prefix := "tlpub:" in
          if negb (HasPrefix s prefix) then
            (k, Some (Errorf "KeyID: missing required prefix %q in string %q"
                        [ArgString prefix; ArgString s]))
          else
            let hexData := string_from (String.length prefix) s in
            match hex.DecodeString hexData with
            | (_, Some err) =>
                (k, Some (ErrorfWrap "KeyID: invalid hex encoding in string %q: %w"
                            [ArgString s] err))
            | (decoded, None) => (decoded, None)
            end
      end
  end.

(** The anonymous struct that both JSON methods of Key go through. *)
Record intermediate := mkIntermediate {
  iKind : KeyKind;
  iVotes : N;
  iPublic : slice byte;
  iMeta : gomap string
}.

Definition intermediate_fields : list string := ["Kind"; "Votes"; "Public"; "Meta"].

Definition MarshalJSON (k : Key) : json.text * error :=
  let x := mkIntermediate (Kind k) (Votes k) (Public k) (Meta k) in
  json.Marshal_struct
    [ ("Kind", json.Marshal_text (KeyKind_MarshalText (iKind x)));
      ("Votes", json.Marshal_uint (iVotes x));
      ("Public", jsonPublicKey_MarshalJSON (iPublic x));
      ("Meta", json.Marshal_map (iMeta x)) ].

(** What the decoder does with a member matched to the field of index [i]. *)
Definition store_field (i : nat) (v : json.Value) (x : intermediate)
  : intermediate * error :=
  match i with
  | 0%nat =>
      let '(k, err) := json.Unmarshal_text KeyKind_UnmarshalText v (iKind x) in
      (mkIntermediate k (iVotes x) (iPublic x) (iMeta x), err)
  | 1%nat =>
      let '(n, err) := json.Unmarshal_uint v (iVotes x) in
      (mkIntermediate (iKind x) n (iPublic x) (iMeta x), err)
  | 2%nat =>
      let '(p, err) := jsonPublicKey_UnmarshalJSON (iPublic x) v in
      (mkIntermediate (iKind x) (iVotes x) p (iMeta x), err)
  | _ =>
      let '(m, err) := json.Unmarshal_map v (iMeta x) in
      (mkIntermediate (iKind x) (iVotes x) (iPublic x) m, err)
  end.

(** [UnmarshalJSON] writes through its receiver [k]; the model returns the
    new value of [*k], which is the old one when an error is returned. *)
Definition UnmarshalJSON (k : Key) (b : json.Value) : Key * error :=
  let intermediate := mkIntermediate 0 0 None None in
  match json.Unmarshal_struct intermediate_fields store_field b intermediate with
  | (_, Some err) => (k, Some err)
  | (intermediate, None) =>
      (mkKey (iKind intermediate) (iVotes intermediate)
         (iPublic intermediate) (iMeta intermediate), None)
  end.

End tka.

(** ** The JSON printer of the network-lock log *)

Fixpoint bytes_Equal (a b : list byte) : bool :=
  match a, b with
  | [], [] => true
  | x :: a', y :: b' => Byte.eqb x y && bytes_Equal a' b'
  | _, _ => false
  end.

(** [io.Writer]: a write gives the writer after it and an error. *)
Class Writer (W : Type) := Write : W -> list byte -> W * error.

Module jsonoutput.

(** [ipnstate.NetworkLockUpdate]; [Hash] is an array of 32 bytes. *)
Record NetworkLockUpdate := mkUpdate {
  Hash : list byte;
  Change : string;
  Raw : slice byte
}.

Section Printer.

Context {W : Type} `{Writer W}.

(** The AUM type of [tka], with its zero value, [Unserialize], which
    fills its receiver from the serialized bytes, and [Hash], the BLAKE2s
    digest of the serialized AUM. *)
Context {AUM : Type} (zeroAUM : AUM).
Context (Unserialize : AUM -> slice byte -> AUM * error).
Context (AUM_Hash : AUM -> list byte).

Context (base64_URLEncoding_EncodeToString : slice byte -> string).

Record logMessageV1 := mkLogMessageV1 {
  msgHash : list byte;
  msgAUM : AUM;
  msgRaw : string
}.

Definition zeroMessage : logMessageV1 :=
  mkLogMessageV1 (replicate 32 x00) zeroAUM EmptyString.

(** The text that the indenting encoder makes of the result, or the
    error of a marshaler. *)
Context (MarshalIndent : string -> list logMessageV1 -> list byte * error).

(** [enc.Encode(result)]: nothing is written when marshaling fails. *)
Definition Encode (out : W) (SchemaVersion : string) (Messages : list logMessageV1)
  : W * error :=
  match MarshalIndent SchemaVersion Messages with
  | (_, Some err) => (out, Some err)
  | (b, None) => Write out b
  end.

(** The loop over [updates] from index [i] on. *)
Fixpoint check_updates (i : nat) (updates : list NetworkLockUpdate)
    (messages : list logMessageV1) : list logMessageV1 * error :=
  match updates with
  | [] => (messages, None)
  | update :: rest =>
      let '(aum, err) := Unserialize zeroAUM (Raw update) in
      match err with
      | Some err => (messages, Some (ErrorfWrap "decoding: %w" [] err))
      | None =>
          let h := AUM_Hash aum in
          if negb (bytes_Equal h (Hash update)) then
            (messages,
             Some (Errorf "incorrect AUM hash: got %v, want %v"
                     [ArgBytes h;
                      ArgUpdate (Hash update) (Change update) (Raw update)]))
          else
            check_updates (S i) rest
              (<[i := mkLogMessageV1 (AUM_Hash aum) aum
                        (base64_URLEncoding_EncodeToString (Raw update))]> messages)
      end
  end.

Definition printNetworkLockJSONV1 (out : W) (updates : list NetworkLockUpdate)
  : W * error :=
  let messages := replicate (length updates) zeroMessage in
  match check_updates 0 updates messages with
  | (_, Some err) => (out, Some err)
  | (messages, None) => Encode out "1" messages
  end.

Definition PrintNetworkLockJSON (out : W) (updates : list NetworkLockUpdate)
    (jsonVersion : Z) : W * error :=
  if (jsonVersion =? 1)%Z then printNetworkLockJSONV1 out updates
  else (out, Some (Errorf "unrecognised version: %q" [ArgInt jsonVersion])).

(** An update is accepted when its Raw bytes decode to an AUM whose hash
    is the Hash of the update; the message that the loop then stores. *)
Definition accepted (update : NetworkLockUpdate) : Prop :=
  (Unserialize zeroAUM (Raw update)).2 = None
  /\ AUM_Hash (Unserialize zeroAUM (Raw update)).1 = Hash update.

Definition message_of (update : NetworkLockUpdate) : logMessageV1 :=
  let aum := (Unserialize zeroAUM (Raw update)).1 in
  mkLogMessageV1 (AUM_Hash aum) aum (base64_URLEncoding_EncodeToString (Raw update)).

(** An update is rejected when its Raw bytes do not decode or when the
    hash of the decoded AUM is not the Hash of the update. *)
Definition rejected (update : NetworkLockUpdate) : Prop :=
  (Unserialize zeroAUM (Raw update)).2 <> None
  \/ AUM_Hash (Unserialize zeroAUM (Raw update)).1 <> Hash update.

End Printer.

End jsonoutput.

(** ** Definitions of the specification *)

(** The total byte length of the keys and values of the metadata. *)
Definition meta_size (m : gomap string) : N :=
  fold_right (fun kv acc => N.of_nat (String.length kv.1 + String.length kv.2) + acc)
    0 (map_to_list (default ∅ m)).

(** The lower-case hexadecimal text of a byte sequence, digit by digit. *)
Definition lower_hex_digit (n : N) : ascii :=
  match n with
  | 0 => "0" | 1 => "1" | 2 => "2" | 3 => "3" | 4 => "4" | 5 => "5"
  | 6 => "6" | 7 => "7" | 8 => "8" | 9 => "9" | 10 => "a" | 11 => "b"
  | 12 => "c" | 13 => "d" | 14 => "e" | _ => "f"
  end%char.

Fixpoint lower_hex (l : list byte) : string :=
  match l with
  | [] => EmptyString
  | b :: l' =>
      String (lower_hex_digit (Byte.to_N b / 16))
        (String (lower_hex_digit (Byte.to_N b mod 16)) (lower_hex l'))
  end.

(** The upper-case hexadecimal text of a byte sequence. *)
Definition upper_hex_digit (n : N) : ascii :=
  match n with
  | 0 => "0" | 1 => "1" | 2 => "2" | 3 => "3" | 4 => "4" | 5 => "5"
  | 6 => "6" | 7 => "7" | 8 => "8" | 9 => "9" | 10 => "A" | 11 => "B"
  | 12 => "C" | 13 => "D" | 14 => "E" | _ => "F"
  end%char.

Fixpoint upper_hex (l : list byte) : string :=
  match l with
  | [] => EmptyString
  | b :: l' =>
      String (upper_hex_digit (Byte.to_N b / 16))
        (String (upper_hex_digit (Byte.to_N b mod 16)) (upper_hex l'))
  end.

(** The hexadecimal digits of either case, and the strings made of them. *)
Definition is_hex_digit (c : ascii) : bool :=
  let n := N_of_ascii c in
  ((48 <=? n) && (n <=? 57)) || ((97 <=? n) && (n <=? 102))
  || ((65 <=? n) && (n <=? 70)).

Fixpoint all_hex (s : string) : bool :=
  match s with
  | EmptyString => true
  | String c t => is_hex_digit c && all_hex t
  end.

(** The step of the loop of StaticValidate over one entry of the map. *)
Definition metaBytes_step (acc : N) (kv : string * string) : N :=
  uint_add acc (uint_wrap (int_add (strlen kv.1) (strlen kv.2))).

(** What decoding gives back for a slice that was encoded: the bytes, in a
    slice that is not nil. *)
Definition decoded_slice (s : slice byte) : slice byte := Some (default [] s).

(** The strings of bytes below 128. *)
Fixpoint is_ascii (s : string) : bool :=
  match s with
  | EmptyString => true
  | String c t => (N_of_ascii c <? 128) && is_ascii t
  end.

(** The keys and values of the metadata are valid UTF-8. *)
Definition meta_utf8 (m : gomap string) : Prop :=
  map_Forall (fun k v => utf8.ValidString k = true /\ utf8.ValidString v = true)
    (default ∅ m).

(** The kinds that have a text form of their own. *)
Definition recognized (k : KeyKind) : Prop :=
  k = tka.KeyInvalid \/ k = tka.Key25519.

(** The key that decoding gives back for an encoded key: the same fields,
    with the Public bytes in a slice that is not nil. *)
Definition decoded_Key (k : tka.Key) : tka.Key :=
  tka.mkKey (tka.Kind k) (tka.Votes k) (decoded_slice (tka.Public k)) (tka.Meta k).

(** ** Sample values *)

(** The key of the log test: kind 25519, one vote, a public key of two
    bytes. *)
Definition fixture_key : tka.Key :=
  tka.mkKey tka.Key25519 1 (Some [x01; x01]) None.

(** The same key with a public key of 32 bytes. *)
Definition full_key : tka.Key :=
  tka.mkKey tka.Key25519 1 (Some (replicate 32 x07)) None.

Definition named_key : tka.Key :=
  tka.mkKey tka.Key25519 7 (Some [xab; xcd])
    (Some (<["name" := "laptop"]> (<["owner" := "ops"]> ∅))).

Definition invalid_key : tka.Key :=
  tka.mkKey tka.KeyInvalid 1 (Some [x01; x01]) None.

(** A writer that keeps what was written, and a small AUM codec: an AUM is a
    byte sequence, a nil Raw does not decode, and the hash of an AUM is its
    first byte. *)
#[local] Instance buffer_writer : Writer (list byte) :=
  fun out b => (out ++ b, None).

Definition sample_Unserialize (aum : list byte) (raw : slice byte) : list byte * error :=
  match raw with
  | Some b => (b, None)
  | None => (aum, Some (ExternalError 1))
  end.

Definition sample_Hash (aum : list byte) : list byte := take 1 aum.

Definition sample_Marshal (v : string) (ms : list (@jsonoutput.logMessageV1 (list byte)))
  : list byte * error :=
  (concat (map jsonoutput.msgHash ms), None).

Definition good_update : jsonoutput.NetworkLockUpdate :=
  jsonoutput.mkUpdate [x01] "add-key" (Some [x01; x02]).

Definition bad_hash_update : jsonoutput.NetworkLockUpdate :=
  jsonoutput.mkUpdate [x09] "remove-key" (Some [x03; x04]).

Definition undecodable_update : jsonoutput.NetworkLockUpdate :=
  jsonoutput.mkUpdate [x01] "checkpoint" None.

(** A key whose metadata holds a byte that is no UTF-8. *)
Definition binary_meta_key : tka.Key :=
  tka.mkKey tka.Key25519 1 (Some [x01; x01])
    (Some {[ "a" := String (ascii_of_N 255) EmptyString ]}).

(** * Properties *)

Ltac unfold_machine :=
  unfold uint_add, uint_wrap, int_add, int_wrap, strlen in *.

(** ** Static validation *)

Section StaticValidation.

Import tka.

Let step (acc : N) (kv : string * string) : N :=
  uint_add acc (uint_wrap (int_add (strlen kv.1) (strlen kv.2))).

Let size_of (l : list (string * string)) : N :=
  fold_right (fun kv acc => N.of_nat (String.length kv.1 + String.length kv.2) + acc) 0 l.

Lemma step_exact acc k v :
  acc + N.of_nat (String.length k + String.length v) < 2 ^ 63 ->
  step acc (k, v) = acc + N.of_nat (String.length k + String.length v).
Proof.
  intros Hb. unfold step. unfold_machine. cbn [fst snd].
  assert (H63 : (2 ^ 63 = 9223372036854775808)%Z) by reflexivity.
  assert (H64 : (2 ^ 64 = 18446744073709551616)%Z) by reflexivity.
  assert (N63 : 2 ^ 63 = 9223372036854775808) by reflexivity.
  assert (N64 : 2 ^ 64 = 18446744073709551616) by reflexivity.
  rewrite N63 in Hb. rewrite H63, H64, N64.
  set (a := String.length k) in *. set (b := String.length v) in *.
  replace ((Z.of_nat a + Z.of_nat b + 9223372036854775808)
             mod 18446744073709551616 - 9223372036854775808)%Z
    with (Z.of_nat a + Z.of_nat b)%Z.
  2:{ rewrite Z.mod_small; lia. }
  rewrite Z.mod_small by lia.
  rewrite N.mod_small by lia. lia.
Qed.

Lemma fold_step_exact l : forall acc,
  acc + size_of l < 2 ^ 63 ->
  fold_left step l acc = acc + size_of l.
Proof.
  induction l as [|[k v] l IH]; intros acc Hb.
  - simpl. lia.
  - change (size_of ((k, v) :: l))
      with (N.of_nat (String.length k + String.length v) + size_of l) in *.
    change (fold_left step ((k, v) :: l) acc) with (fold_left step l (step acc (k, v))).
    rewrite step_exact by lia. rewrite IH; lia.
Qed.

Lemma metaBytes_exact (m : gomap string) :
  meta_size m < 2 ^ 63 -> metaBytes m = meta_size m.
Proof.
  intros Hb. unfold metaBytes, meta_size in *.
  change (fold_left step (map_to_list (default ∅ m)) 0
          = size_of (map_to_list (default ∅ m))).
  rewrite fold_step_exact; [lia | exact Hb].
Qed.

Lemma StaticValidate_ok_iff (k : Key) :
  StaticValidate k = None <->
  1 <= Votes k <= 4096 /\ metaBytes (Meta k) <= maxMetaBytes /\ Kind k = Key25519.
Proof.
  unfold StaticValidate, maxMetaBytes.
  destruct (N.ltb_spec 4096 (Votes k)); [split; [discriminate | lia] |].
  destruct (N.eqb_spec (Votes k) 0); [split; [discriminate | lia] |].
  cbv zeta.
  destruct (N.ltb_spec 512 (metaBytes (Meta k))); [split; [discriminate | lia] |].
  destruct (N.eqb_spec (Kind k) Key25519); split; try discriminate; intuition lia.
Qed.

(** C1. StaticValidate succeeds exactly for the keys whose votes are in
    [1, 4096], whose metadata keys and values have a total length of at
    most 512 bytes and whose kind is Key25519, the metadata being of a
    size that a 64-bit machine holds; it fails for no votes, for more than
    4096 votes and for the invalid kind. *)
Theorem StaticValidate_iff (k : Key) :
  meta_size (Meta k) < 2 ^ 63 ->
  (StaticValidate k = None <->
     1 <= Votes k <= 4096 /\ meta_size (Meta k) <= 512 /\ Kind k = Key25519)
  /\ (Votes k = 0 -> StaticValidate k <> None)
  /\ (4096 < Votes k -> StaticValidate k <> None)
  /\ (Kind k = KeyInvalid -> StaticValidate k <> None).
Proof.
  intros Hb. pose proof (StaticValidate_ok_iff k) as Hiff.
  rewrite (metaBytes_exact _ Hb) in Hiff. unfold maxMetaBytes in Hiff.
  split; [exact Hiff |].
  repeat split; intros Hc Hv; apply Hiff in Hv;
    destruct Hv as (Hv & _ & Hk); try lia.
  rewrite Hc in Hk. discriminate.
Qed.

(** C2, as amended. The result of StaticValidate depends on the kind, the
    votes and the metadata of a key only: two keys that differ in their
    Public bytes alone, of whatever lengths, get the same result. *)
Theorem StaticValidate_ignores_Public (k1 k2 : Key) :
  Kind k1 = Kind k2 -> Votes k1 = Votes k2 -> Meta k1 = Meta k2 ->
  StaticValidate k1 = StaticValidate k2.
Proof.
  destruct k1 as [kind1 votes1 public1 meta1], k2 as [kind2 votes2 public2 meta2].
  cbn [Kind Votes Meta]. intros -> -> ->.
  unfold StaticValidate. reflexivity.
Qed.

End StaticValidation.

Lemma StaticValidate_iff_witness :
  tka.StaticValidate named_key = None <->
  1 <= tka.Votes named_key <= 4096 /\ meta_size (tka.Meta named_key) <= 512
  /\ tka.Kind named_key = tka.Key25519.
Proof.
  apply (StaticValidate_iff named_key). vm_compute. reflexivity.
Defined.

Lemma StaticValidate_ignores_Public_witness :
  tka.StaticValidate fixture_key = tka.StaticValidate full_key.
Proof.
  apply (StaticValidate_ignores_Public fixture_key full_key); reflexivity.
Defined.

(** C2, as stated, fails: a key of kind 25519 with a public key of two
    bytes passes static validation. *)
Lemma StaticValidate_short_public :
  ~ (forall k : tka.Key,
       tka.Kind k = tka.Key25519 -> len (tka.Public k) <> 32%nat ->
       tka.StaticValidate k <> None).
Proof.
  intros Hall. apply (Hall fixture_key); [reflexivity | | reflexivity].
  vm_compute. discriminate.
Qed.

(** ** Identifiers and verifying keys *)

Section Identifiers.

Import tka.

(** C3. The identifier of a 25519 key is its Public bytes as they are;
    for any other kind, the invalid one included, ID returns an error
    and the nil identifier. *)
Theorem ID_spec (k : Key) :
  (Kind k = Key25519 -> ID k = (Public k, None))
  /\ (Kind k <> Key25519 ->
      ID k = (None, Some (Errorf "unknown key kind: %v" [ArgKeyKind (Kind k)]))).
Proof.
  unfold ID. split; intros Hk.
  - rewrite Hk. reflexivity.
  - destruct (N.eqb_spec (Kind k) Key25519); [contradiction | reflexivity].
Qed.

(** C7. Ed25519 returns the Public bytes of a 25519 key, and for a key
    of any other kind an error and no key material. *)
Theorem Ed25519_spec (k : Key) :
  (Kind k = Key25519 -> Ed25519 k = (Public k, None))
  /\ (Kind k <> Key25519 ->
      Ed25519 k
      = (None, Some (Errorf "key is of type %v, not ed25519" [ArgKeyKind (Kind k)]))).
Proof.
  unfold Ed25519. split; intros Hk.
  - rewrite Hk. reflexivity.
  - destruct (N.eqb_spec (Kind k) Key25519); [contradiction | reflexivity].
Qed.

End Identifiers.

Lemma ID_spec_witness :
  tka.ID fixture_key = (tka.Public fixture_key, None)
  /\ tka.ID invalid_key
     = (None, Some (Errorf "unknown key kind: %v" [ArgKeyKind tka.KeyInvalid])).
Proof.
  split.
  - apply (proj1 (ID_spec fixture_key)). reflexivity.
  - apply (proj2 (ID_spec invalid_key)). vm_compute. discriminate.
Defined.

Lemma Ed25519_spec_witness :
  tka.Ed25519 fixture_key = (tka.Public fixture_key, None)
  /\ tka.Ed25519 invalid_key
     = (None, Some (Errorf "key is of type %v, not ed25519" [ArgKeyKind tka.KeyInvalid])).
Proof.
  split.
  - apply (proj1 (Ed25519_spec fixture_key)). reflexivity.
  - apply (proj2 (Ed25519_spec invalid_key)). vm_compute. discriminate.
Defined.

(** ** Clone *)

Section Cloning.

Import tka.

Lemma copy_into_make (p : list byte) : copy (make_bytes (length p)) p = p.
Proof.
  unfold copy, make_bytes. rewrite length_replicate.
  rewrite firstn_all. rewrite drop_ge by (rewrite length_replicate; lia).
  apply app_nil_r.
Qed.

(** Storing the entries of a map one by one into an empty map gives the
    map back, whatever the order of the entries. *)
Lemma fold_insert_entries (l : list (string * string)) :
  fold_left (fun acc kv => <[kv.1 := kv.2]> acc) l (∅ : gmap string string)
  = list_to_map (rev l).
Proof.
  rewrite <- fold_left_rev_right. generalize (rev l). intros l'.
  induction l' as [|[k v] l' IH]; [reflexivity |].
  cbn [fold_right list_to_map fst snd]. now rewrite IH.
Qed.

Lemma fold_insert_map_to_list (m : gmap string string) :
  fold_left (fun acc kv => <[kv.1 := kv.2]> acc) (map_to_list m) ∅ = m.
Proof.
  rewrite fold_insert_entries.
  rewrite <- (list_to_map_to_list m) at 2.
  apply list_to_map_proper.
  - rewrite rev_alt. fold (reverse (map_to_list m)).
    rewrite fmap_reverse, reverse_Permutation. apply NoDup_fst_map_to_list.
  - rewrite rev_alt. apply reverse_Permutation.
Qed.

(** C8. The clone of a key is equal to the key in all its fields, and a
    nil Public or Meta stays nil while one that is not nil stays so. *)
Theorem Clone_eq (k : Key) :
  Clone k = k
  /\ (Public (Clone k) = None <-> Public k = None)
  /\ (Meta (Clone k) = None <-> Meta k = None).
Proof.
  assert (H : Clone k = k).
  { destruct k as [kind votes [p|] [m|]]; unfold Clone; cbn;
      rewrite ?copy_into_make, ?fold_insert_map_to_list; reflexivity. }
  rewrite H. tauto.
Qed.

End Cloning.

(** ** The text form of a KeyKind *)

Section KindText.

Import tka.

Lemma KeyKind_String_other (k : KeyKind) :
  k <> KeyInvalid -> k <> Key25519 ->
  KeyKind_String k = "Key?<" +:+ decimal k +:+ ">".
Proof.
  intros H0 H1. unfold KeyKind_String.
  destruct (N.eqb_spec k KeyInvalid); [contradiction |].
  destruct (N.eqb_spec k Key25519); [contradiction | reflexivity].
Qed.

(** C10. UnmarshalText gives back KeyInvalid and Key25519 from their
    text; every other text, the one that String makes of any other kind
    included, is answered with the error "unrecognised key kind" and
    leaves the receiver as it was. *)
Theorem KeyKind_text_roundtrip :
  (forall k k0 : KeyKind,
     k = KeyInvalid \/ k = Key25519 ->
     KeyKind_UnmarshalText k0 (KeyKind_MarshalText k).1 = (k, None))
  /\ (forall (b : string) (k0 : KeyKind),
        b <> "invalid" -> b <> "25519" ->
        KeyKind_UnmarshalText k0 b
        = (k0, Some (Errorf "unrecognised key kind: %q" [ArgString b])))
  /\ (forall k k0 : KeyKind,
        k <> KeyInvalid -> k <> Key25519 ->
        KeyKind_UnmarshalText k0 (KeyKind_MarshalText k).1
        = (k0, Some (Errorf "unrecognised key kind: %q"
                       [ArgString ("Key?<" +:+ decimal k +:+ ">")]))).
Proof.
  assert (Hother : forall (b : string) (k0 : KeyKind),
            b <> "invalid" -> b <> "25519" ->
            KeyKind_UnmarshalText k0 b
            = (k0, Some (Errorf "unrecognised key kind: %q" [ArgString b]))).
  { intros b k0 H0 H1. unfold KeyKind_UnmarshalText.
    change (KeyKind_String KeyInvalid) with "invalid".
    change (KeyKind_String Key25519) with "25519".
    destruct (String.eqb_spec b "invalid"); [contradiction |].
    destruct (String.eqb_spec b "25519"); [contradiction | reflexivity]. }
  split; [| split].
  - intros k k0 [-> | ->]; reflexivity.
  - exact Hother.
  - intros k k0 H0 H1. cbn [KeyKind_MarshalText fst].
    rewrite (KeyKind_String_other k H0 H1).
    apply Hother; discriminate.
Qed.

End KindText.

Lemma KeyKind_text_roundtrip_witness :
  tka.KeyKind_UnmarshalText 0 (tka.KeyKind_MarshalText tka.Key25519).1
  = (tka.Key25519, None)
  /\ tka.KeyKind_UnmarshalText 1 "ed25519"
     = (1, Some (Errorf "unrecognised key kind: %q" [ArgString "ed25519"]))
  /\ tka.KeyKind_UnmarshalText 1 (tka.KeyKind_MarshalText 7).1
     = (1, Some (Errorf "unrecognised key kind: %q" [ArgString "Key?<7>"])).
Proof.
  destruct KeyKind_text_roundtrip as (Hrt & Hother & Hunk).
  split; [| split].
  - apply Hrt. right. reflexivity.
  - apply Hother; discriminate.
  - apply (Hunk 7 1); vm_compute; discriminate.
Defined.

(** ** The JSON printer of the log *)

Section PrinterProperties.

Import jsonoutput.

Context {W : Type} `{Writer W}.
Context {AUM : Type} (zeroAUM : AUM).
Context (Unserialize : AUM -> slice byte -> AUM * error).
Context (AUM_Hash : AUM -> list byte).
Context (base64 : slice byte -> string).
Context (MarshalIndent : string -> list (@logMessageV1 AUM) -> list byte * error).

Let printV1 := printNetworkLockJSONV1 zeroAUM Unserialize AUM_Hash base64 MarshalIndent.
Let print := PrintNetworkLockJSON zeroAUM Unserialize AUM_Hash base64 MarshalIndent.
Let check := check_updates zeroAUM Unserialize AUM_Hash base64.
Let rejected := rejected zeroAUM Unserialize AUM_Hash.

(** C6. A version other than 1 is answered with the error "unrecognised
    version" and nothing is written; version 1 is the V1 printer. *)
Theorem PrintNetworkLockJSON_version (out : W) (updates : list NetworkLockUpdate) :
  (forall jsonVersion : Z,
     jsonVersion <> 1%Z ->
     print out updates jsonVersion
     = (out, Some (Errorf "unrecognised version: %q" [ArgInt jsonVersion])))
  /\ print out updates 1%Z = printV1 out updates.
Proof.
  unfold print, PrintNetworkLockJSON. split; [| reflexivity].
  intros v Hv. destruct (Z.eqb_spec v 1); [contradiction | reflexivity].
Qed.

Lemma bytes_Equal_eq (a b : list byte) : bytes_Equal a b = true <-> a = b.
Proof.
  revert b. induction a as [|x a IH]; intros [|y b]; cbn [bytes_Equal];
    try (split; [discriminate | discriminate]); [tauto |].
  rewrite andb_true_iff, IH. split.
  - intros [Hxy ->]. now rewrite (Byte.byte_dec_bl x y Hxy).
  - intros [= -> ->]. split; [now apply Byte.byte_dec_lb | reflexivity].
Qed.

Lemma check_updates_rejected (updates : list NetworkLockUpdate) :
  Exists rejected updates ->
  forall i messages, exists messages' e, check i updates messages = (messages', Some e).
Proof.
  unfold check.
  induction updates as [|update rest IH]; intros Hex i messages.
  - inversion Hex.
  - cbn [check_updates].
    destruct (Unserialize zeroAUM (Raw update)) as [aum [err|]] eqn:Hun; [eauto |].
    destruct (bytes_Equal (AUM_Hash aum) (Hash update)) eqn:Heq; cbn [negb]; [| eauto].
    apply IH. inversion Hex as [? ? Hrej | ? ? Hrest]; subst; [| exact Hrest].
    exfalso. unfold rejected, jsonoutput.rejected in Hrej.
    rewrite Hun in Hrej. cbn [fst snd] in Hrej.
    apply bytes_Equal_eq in Heq. destruct Hrej as [Hrej | Hrej]; congruence.
Qed.

(** C9. When an update of the list does not decode, or decodes to an AUM
    whose hash is not the stated one, the V1 printer returns an error and
    writes nothing. *)
Theorem printNetworkLockJSONV1_verifies (out : W) (updates : list NetworkLockUpdate) :
  Exists rejected updates ->
  exists e, printV1 out updates = (out, Some e).
Proof.
  intros Hex. unfold printV1, printNetworkLockJSONV1.
  destruct (check_updates_rejected updates Hex 0%nat
              (replicate (length updates) (zeroMessage zeroAUM))) as (ms & e & Hc).
  unfold check in Hc. rewrite Hc. eauto.
Qed.

End PrinterProperties.

Lemma PrintNetworkLockJSON_version_witness :
  jsonoutput.PrintNetworkLockJSON [] sample_Unserialize sample_Hash (fun _ => EmptyString)
    sample_Marshal [x2a] [good_update] 2%Z
  = ([x2a], Some (Errorf "unrecognised version: %q" [ArgInt 2%Z])).
Proof.
  apply (proj1 (PrintNetworkLockJSON_version [] sample_Unserialize sample_Hash
                  (fun _ => EmptyString) sample_Marshal [x2a] [good_update])).
  discriminate.
Defined.

Lemma printNetworkLockJSONV1_verifies_witness :
  exists e,
    jsonoutput.printNetworkLockJSONV1 [] sample_Unserialize sample_Hash (fun _ => EmptyString)
      sample_Marshal [x2a] [good_update; bad_hash_update]
    = ([x2a], Some e).
Proof.
  apply (printNetworkLockJSONV1_verifies [] sample_Unserialize sample_Hash
           (fun _ => EmptyString) sample_Marshal [x2a] [good_update; bad_hash_update]).
  apply Exists_cons_tl, Exists_cons_hd. right. vm_compute. discriminate.
Defined.

(** ** The text form of key identifiers *)

Section HexText.

Lemma hex_digits_of_byte (b : byte) :
  hex.digit (Byte.to_N b / 16) = lower_hex_digit (Byte.to_N b / 16)
  /\ hex.digit (Byte.to_N b mod 16) = lower_hex_digit (Byte.to_N b mod 16).
Proof. destruct b; split; reflexivity. Qed.

Lemma EncodeToString_lower_hex (l : list byte) : hex.EncodeToString l = lower_hex l.
Proof.
  induction l as [|b l IH]; [reflexivity |].
  cbn [hex.EncodeToString fold_right lower_hex].
  destruct (hex_digits_of_byte b) as [-> ->].
  f_equal. f_equal. exact IH.
Qed.

Lemma decode_digits_of_byte (b : byte) :
  hex.fromHexChar (lower_hex_digit (Byte.to_N b / 16)) = Some (Byte.to_N b / 16)
  /\ hex.fromHexChar (lower_hex_digit (Byte.to_N b mod 16)) = Some (Byte.to_N b mod 16)
  /\ hex.mkbyte (Byte.to_N b / 16) (Byte.to_N b mod 16) = b.
Proof. destruct b; repeat split; reflexivity. Qed.

Lemma Decode_lower_hex (l : list byte) : hex.Decode (lower_hex l) = (l, None).
Proof.
  induction l as [|b l IH]; [reflexivity |].
  cbn [lower_hex hex.Decode].
  destruct (decode_digits_of_byte b) as (-> & -> & ->).
  rewrite IH. reflexivity.
Qed.

(** Strings of bytes below 128 are valid UTF-8. *)
Lemma ascii_valid (s : string) : is_ascii s = true -> utf8.ValidString s = true.
Proof.
  unfold utf8.ValidString.
  induction s as [|c t IH]; [reflexivity |].
  cbn [is_ascii]. intros Hc. apply andb_prop in Hc as [Hc Ht].
  cbn [utf8.valid_from].
  unfold utf8.rune_ok, utf8.rune_size, utf8.DecodeRuneInString, utf8.byte_at.
  cbn [String.get fmap option_fmap option_map]. rewrite Hc. cbn [snd].
  apply N.ltb_lt in Hc.
  replace (N_of_ascii c =? utf8.RuneError) with false
    by (symmetry; apply N.eqb_neq; unfold utf8.RuneError; lia).
  cbn. apply IH, Ht.
Qed.

Lemma lower_hex_ascii (l : list byte) : is_ascii (lower_hex l) = true.
Proof.
  induction l as [|b l IH]; [reflexivity |].
  cbn [lower_hex is_ascii]. rewrite IH.
  destruct b; reflexivity.
Qed.

Lemma coerce_from_valid (s : string) : forall skip,
  utf8.valid_from skip s = true -> json.coerce_from skip s = s.
Proof.
  induction s as [|c t IH]; intros skip Hv; [reflexivity |].
  destruct skip as [|n]; cbn [utf8.valid_from json.coerce_from] in *.
  - apply andb_prop in Hv as [Hok Hv]. rewrite Hok. f_equal. apply IH, Hv.
  - f_equal. apply IH, Hv.
Qed.

Lemma coerce_valid (s : string) : utf8.ValidString s = true -> json.coerce s = s.
Proof. apply coerce_from_valid. Qed.

Lemma coerce_tlpub (l : list byte) :
  json.coerce (Sprintf_tlpub_x l) = "tlpub:" +:+ lower_hex l.
Proof.
  unfold Sprintf_tlpub_x. rewrite EncodeToString_lower_hex.
  apply coerce_valid, ascii_valid. cbn. apply lower_hex_ascii.
Qed.

Lemma Marshal_tlpub (b : byte) (l : list byte) :
  tkatype.MarshalJSON (Some (b :: l))
  = (Some (json.Str ("tlpub:" +:+ lower_hex (b :: l))), None)
  /\ tka.jsonPublicKey_MarshalJSON (Some (b :: l))
     = (Some (json.Str ("tlpub:" +:+ lower_hex (b :: l))), None).
Proof.
  unfold tkatype.MarshalJSON, tka.jsonPublicKey_MarshalJSON.
  cbn [len default length Nat.eqb]. unfold json.Marshal_string.
  rewrite coerce_tlpub. split; reflexivity.
Qed.

(** C5. The JSON form of a key identifier and of a public key that are not
    empty is the string made of "tlpub:" and the lower-case hexadecimal
    digits of the bytes, two per byte; a nil or empty one is JSON null. *)
Theorem key_text_form :
  (forall k : list byte,
     k <> [] ->
     tkatype.MarshalJSON (Some k) = (Some (json.Str ("tlpub:" +:+ lower_hex k)), None)
     /\ tka.jsonPublicKey_MarshalJSON (Some k)
        = (Some (json.Str ("tlpub:" +:+ lower_hex k)), None))
  /\ tkatype.MarshalJSON None = (Some json.Null, None)
  /\ tkatype.MarshalJSON (Some []) = (Some json.Null, None)
  /\ tka.jsonPublicKey_MarshalJSON None = (Some json.Null, None)
  /\ tka.jsonPublicKey_MarshalJSON (Some []) = (Some json.Null, None).
Proof.
  split; [| repeat split].
  intros k Hk. destruct k as [|b k]; [contradiction |].
  apply Marshal_tlpub.
Qed.

End HexText.

(** The JSON forms that the log test expects of its keys and identifiers. *)
Example fixture_key_JSON :
  tka.MarshalJSON fixture_key
  = (Some (json.Object [("Kind", json.Str "25519"); ("Votes", json.Number "1");
                        ("Public", json.Str "tlpub:0101"); ("Meta", json.Null)]),
     None).
Proof. reflexivity. Qed.

Example fixture_KeyID_JSON :
  tkatype.MarshalJSON (Some [x03; x03]) = (Some (json.Str "tlpub:0303"), None)
  /\ tkatype.MarshalJSON None = (Some json.Null, None).
Proof. split; reflexivity. Qed.

Example upper_case_hex_decodes :
  tkatype.UnmarshalJSON None (json.Str "tlpub:0A0b") = (Some [x0a; x0b], None).
Proof. reflexivity. Qed.

Example missing_prefix_rejected :
  (tkatype.UnmarshalJSON (Some [x01]) (json.Str "0a0b")).1 = Some [x01]
  /\ (tkatype.UnmarshalJSON (Some [x01]) (json.Str "0a0b")).2 <> None.
Proof. split; [reflexivity | discriminate]. Qed.

Lemma key_text_form_witness :
  tkatype.MarshalJSON (Some [x03; xab]) = (Some (json.Str "tlpub:03ab"), None)
  /\ tka.jsonPublicKey_MarshalJSON (Some [x03; xab])
     = (Some (json.Str "tlpub:03ab"), None).
Proof.
  apply (proj1 key_text_form [x03; xab]). discriminate.
Defined.

(** ** The JSON round trip *)

Section JSONRoundTrip.

Import tka.

Lemma substring_all (s : string) : String.substring 0 (String.length s) s = s.
Proof. induction s as [|c t IH]; [reflexivity |]. cbn. now rewrite IH. Qed.

Lemma tlpub_prefix (h : string) :
  HasPrefix ("tlpub:" +:+ h) "tlpub:" = true
  /\ string_from (String.length "tlpub:") ("tlpub:" +:+ h) = h.
Proof.
  split.
  - unfold HasPrefix. apply prefix_correct. destruct h; reflexivity.
  - unfold string_from. cbv [append]. cbn. rewrite Nat.sub_0_r. apply substring_all.
Qed.

Lemma KeyID_Unmarshal_tlpub (k0 : slice byte) (l : list byte) :
  tkatype.UnmarshalJSON k0 (json.Str ("tlpub:" +:+ lower_hex l)) = (Some l, None).
Proof.
  unfold tkatype.UnmarshalJSON. cbn [json.Unmarshal_string].
  destruct (tlpub_prefix (lower_hex l)) as [-> ->]. cbn [negb].
  unfold hex.DecodeString. rewrite Decode_lower_hex. reflexivity.
Qed.

Lemma jsonPublicKey_Unmarshal_tlpub (k0 : slice byte) (l : list byte) :
  jsonPublicKey_UnmarshalJSON k0 (json.Str ("tlpub:" +:+ lower_hex l)) = (Some l, None).
Proof. exact (KeyID_Unmarshal_tlpub k0 l). Qed.

(** The round trip of a key identifier. *)
Lemma KeyID_roundtrip (k : slice byte) :
  exists v, tkatype.MarshalJSON k = (Some v, None)
            /\ forall k0, tkatype.UnmarshalJSON k0 v = (decoded_slice k, None).
Proof.
  destruct k as [[|b l]|].
  - exists json.Null. split; reflexivity.
  - exists (json.Str ("tlpub:" +:+ lower_hex (b :: l))). split.
    + apply Marshal_tlpub.
    + intros k0. apply KeyID_Unmarshal_tlpub.
  - exists json.Null. split; reflexivity.
Qed.

Lemma jsonPublicKey_roundtrip (k : slice byte) :
  exists v, jsonPublicKey_MarshalJSON k = (Some v, None)
            /\ forall k0, jsonPublicKey_UnmarshalJSON k0 v = (decoded_slice k, None).
Proof. exact (KeyID_roundtrip k). Qed.

Lemma Kind_roundtrip (k : KeyKind) :
  recognized k ->
  exists v, json.Marshal_text (KeyKind_MarshalText k) = (Some v, None)
            /\ forall k0, json.Unmarshal_text KeyKind_UnmarshalText v k0 = (k, None).
Proof.
  intros [-> | ->]; eexists; split; reflexivity.
Qed.

Lemma to_uint_nonnil (n : N) : N.to_uint n <> Decimal.Nil.
Proof.
  destruct n as [|p]; [discriminate |]. apply DecimalPos.Unsigned.to_uint_nonnil.
Qed.

Lemma ParseUint_decimal (n : N) :
  uint_ok n -> json.ParseUint (NilZero.string_of_uint (N.to_uint n)) = Some n.
Proof.
  intros Hn. unfold json.ParseUint.
  rewrite NilZero.usu by apply to_uint_nonnil.
  rewrite DecimalN.Unsigned.of_to.
  unfold uint_ok in Hn. apply N.ltb_lt in Hn. now rewrite Hn.
Qed.

Lemma Votes_roundtrip (n : N) :
  uint_ok n ->
  exists v, json.Marshal_uint n = (Some v, None)
            /\ forall n0, json.Unmarshal_uint v n0 = (n, None).
Proof.
  intros Hn. eexists. split; [reflexivity |]. intros n0.
  cbn [json.Unmarshal_uint]. now rewrite ParseUint_decimal.
Qed.

(** The members that a map of valid strings is written as, and what the
    decoder makes of them. *)
Lemma members_valid (l : list (string * string)) :
  Forall (fun kv => utf8.ValidString kv.1 = true /\ utf8.ValidString kv.2 = true) l ->
  (fun kv : string * string => (json.coerce kv.1, json.Str (json.coerce kv.2))) <$> l
  = (fun kv : string * string => (kv.1, json.Str kv.2)) <$> l.
Proof.
  induction 1 as [|[k v] l [Hk Hv] _ IH]; [reflexivity |].
  cbn [fmap list_fmap fst snd] in *.
  rewrite (coerce_valid k Hk), (coerce_valid v Hv). f_equal. exact IH.
Qed.

Lemma decode_members (l : list (string * string)) : forall m : gmap string string,
  fold_left
    (fun (acc : gmap string string * error) (kv : string * json.Value) =>
       match acc with
       | (_, Some _) => acc
       | (m, None) =>
           let '(s, err) := json.Unmarshal_string kv.2 EmptyString in
           (<[kv.1 := s]> m, err)
       end)
    ((fun kv : string * string => (kv.1, json.Str kv.2)) <$> l) (m, None)
  = (fold_left (fun acc kv => <[kv.1 := kv.2]> acc) l m, None).
Proof.
  induction l as [|[k v] l IH]; intros m; [reflexivity |].
  cbn [fmap list_fmap fold_left fst snd json.Unmarshal_string]. apply IH.
Qed.

Lemma fold_insert_permutation (l : list (string * string)) (m : gmap string string) :
  l ≡ₚ map_to_list m ->
  fold_left (fun acc kv => <[kv.1 := kv.2]> acc) l ∅ = m.
Proof.
  intros Hp. rewrite fold_insert_entries.
  rewrite <- (list_to_map_to_list m) at 1.
  assert (Hrev : rev l ≡ₚ map_to_list m)
    by (rewrite rev_alt; fold (reverse l); now rewrite reverse_Permutation).
  apply list_to_map_proper; [| exact Hrev].
  rewrite Hrev. apply NoDup_fst_map_to_list.
Qed.

Lemma Meta_roundtrip (m : gomap string) :
  meta_utf8 m ->
  exists v, json.Marshal_map m = (Some v, None)
            /\ json.Unmarshal_map v None = (m, None).
Proof.
  intros Hm. destruct m as [m|]; [| exists json.Null; split; reflexivity].
  eexists. split; [reflexivity |].
  unfold meta_utf8 in Hm. cbn [default] in Hm.
  apply map_Forall_to_list in Hm.
  assert (Hs : merge_sort json.key_le (map_to_list m) ≡ₚ map_to_list m)
    by apply merge_sort_Permutation.
  rewrite <- Hs in Hm.
  rewrite members_valid.
  2:{ eapply Forall_impl; [exact Hm |]. intros [k v]. exact id. }
  cbn [json.Unmarshal_map default].
  rewrite decode_members, (fold_insert_permutation _ m Hs). reflexivity.
Qed.

Lemma field_indexes :
  json.field_index intermediate_fields "Kind" = Some 0%nat
  /\ json.field_index intermediate_fields "Votes" = Some 1%nat
  /\ json.field_index intermediate_fields "Public" = Some 2%nat
  /\ json.field_index intermediate_fields "Meta" = Some 3%nat.
Proof. repeat split; reflexivity. Qed.

(** C4, as amended. Unmarshalling the JSON form of a key identifier gives
    the identifier back, a nil or empty one as an empty one; and so it is
    for a key of a recognized kind, with votes that fit a uint and with
    metadata whose keys and values are valid UTF-8: the kind, the votes and
    the metadata come back as they were, the Public bytes as a slice that
    is not nil. *)
Theorem JSON_roundtrip :
  (forall k : slice byte,
     exists v, tkatype.MarshalJSON k = (Some v, None)
               /\ forall k0, tkatype.UnmarshalJSON k0 v = (decoded_slice k, None))
  /\ (forall k : Key,
        recognized (Kind k) -> uint_ok (Votes k) -> meta_utf8 (Meta k) ->
        exists v, MarshalJSON k = (Some v, None)
                  /\ forall k0, UnmarshalJSON k0 v = (decoded_Key k, None)).
Proof.
  split; [exact KeyID_roundtrip |].
  intros [kind votes public meta]. cbn [Kind Votes Public Meta]. intros Hk Hv Hm.
  destruct (Kind_roundtrip kind Hk) as (vK & HmK & HuK).
  destruct (Votes_roundtrip votes Hv) as (vV & HmV & HuV).
  destruct (jsonPublicKey_roundtrip public) as (vP & HmP & HuP).
  destruct (Meta_roundtrip meta Hm) as (vM & HmM & HuM).
  exists (json.Object [("Kind", vK); ("Votes", vV); ("Public", vP); ("Meta", vM)]).
  split.
  - unfold MarshalJSON. cbn [iKind iVotes iPublic iMeta Kind Votes Public Meta].
    rewrite HmK, HmV, HmP, HmM. reflexivity.
  - intros k0. unfold UnmarshalJSON, json.Unmarshal_struct.
    destruct field_indexes as (HiK & HiV & HiP & HiM).
    cbn [fold_left fst snd].
    rewrite HiK, HiV, HiP, HiM.
    cbn [store_field iKind iVotes iPublic iMeta].
    rewrite HuK. cbn [store_field iKind iVotes iPublic iMeta].
    rewrite HuV. cbn [store_field iKind iVotes iPublic iMeta].
    rewrite HuP. cbn [store_field iKind iVotes iPublic iMeta].
    rewrite HuM. reflexivity.
Qed.

End JSONRoundTrip.

Lemma JSON_roundtrip_witness :
  exists v, tka.MarshalJSON named_key = (Some v, None)
            /\ forall k0, tka.UnmarshalJSON k0 v = (decoded_Key named_key, None).
Proof.
  apply (proj2 JSON_roundtrip named_key).
  - right. reflexivity.
  - reflexivity.
  - apply map_Forall_to_list. vm_compute. repeat constructor.
Defined.

(** C4, as stated, fails: the metadata of a key of a recognized kind does
    not come back when it holds a byte that is no UTF-8, which the encoder
    replaces by U+FFFD. *)
Lemma JSON_roundtrip_binary_meta :
  ~ (forall k : tka.Key,
       recognized (tka.Kind k) -> uint_ok (tka.Votes k) ->
       exists v, tka.MarshalJSON k = (Some v, None)
                 /\ forall k0, tka.UnmarshalJSON k0 v = (decoded_Key k, None)).
Proof.
  intros Hall.
  destruct (Hall binary_meta_key (or_intror eq_refl) eq_refl) as (v & Hm & Hu).
  vm_compute in Hm. injection Hm as <-.
  specialize (Hu binary_meta_key).
  apply (f_equal (fun r => tka.Meta r.1 ≫= (.!! "a"))) in Hu.
  vm_compute in Hu. discriminate.
Qed.

(** * Further properties of the key model *)

Section ValidatedKeys.

Import tka.

(** X1. A key that passes static validation has an identifier and a
    verifying key, both its Public bytes, and MustID does not panic on
    it. *)
Theorem validated_key_has_ID (k : Key) :
  StaticValidate k = None ->
  ID k = (Public k, None)
  /\ Ed25519 k = (Public k, None)
  /\ MustID k = Returned (Public k).
Proof.
  intros Hv. apply StaticValidate_ok_iff in Hv as (_ & _ & Hk).
  unfold MustID, ID, Ed25519. rewrite Hk. repeat split.
Qed.

(** X2. On every key ID and Ed25519 return the same bytes and fail
    together, and MustID panics exactly on the keys that ID fails on, the
    keys whose kind is not Key25519. *)
Theorem ID_agrees_with_Ed25519 (k : Key) :
  (ID k).1 = (Ed25519 k).1
  /\ ((ID k).2 = None <-> (Ed25519 k).2 = None)
  /\ ((exists e, MustID k = Panicked e) <-> Kind k <> Key25519)
  /\ (MustID k = Returned (Public k) <-> Kind k = Key25519).
Proof.
  unfold MustID, ID, Ed25519.
  destruct (N.eqb_spec (Kind k) Key25519) as [Hk | Hk]; cbn [fst snd].
  - repeat split; try tauto; try congruence.
    intros [e He]. discriminate.
  - repeat split; try tauto; try congruence; try discriminate; eauto.
Qed.

(** The loop of StaticValidate gives the same sum in whatever order the
    entries come. *)
Lemma metaBytes_step_swap (acc : N) (x y : string * string) :
  metaBytes_step (metaBytes_step acc x) y = metaBytes_step (metaBytes_step acc y) x.
Proof.
  unfold metaBytes_step, uint_add.
  set (a := uint_wrap (int_add (strlen x.1) (strlen x.2))).
  set (b := uint_wrap (int_add (strlen y.1) (strlen y.2))).
  assert (Hnz : 2 ^ 64 <> 0) by discriminate.
  rewrite !N.Div0.add_mod_idemp_l.
  f_equal. lia.
Qed.

Lemma fold_metaBytes_step_perm (l1 l2 : list (string * string)) :
  l1 ≡ₚ l2 -> forall acc, fold_left metaBytes_step l1 acc = fold_left metaBytes_step l2 acc.
Proof.
  induction 1 as [| x l1 l2 _ IH | x y l | l1 l2 l3 _ IH1 _ IH2]; intros acc.
  - reflexivity.
  - cbn [fold_left]. apply IH.
  - cbn [fold_left]. now rewrite metaBytes_step_swap.
  - now rewrite IH1.
Qed.

(** X3. The metadata size that StaticValidate computes does not depend on
    the order in which the loop visits the entries of the map. *)
Theorem metaBytes_order_independent (m : gmap string string)
    (l : list (string * string)) :
  l ≡ₚ map_to_list m ->
  fold_left metaBytes_step l 0 = metaBytes (Some m).
Proof.
  intros Hp. unfold metaBytes. cbn [default].
  exact (fold_metaBytes_step_perm _ _ Hp 0).
Qed.

(** X4. The copy of the metadata that Clone makes does not depend on the
    order in which its loop visits the entries of the map. *)
Theorem Clone_order_independent (k : Key) (m : gmap string string)
    (l : list (string * string)) :
  Meta k = Some m ->
  l ≡ₚ map_to_list m ->
  Meta (Clone k) = Some (fold_left (fun acc kv => <[kv.1 := kv.2]> acc) l ∅).
Proof.
  intros Hm Hp. rewrite (fold_insert_permutation l m Hp).
  destruct k as [kind votes [p|] meta]; cbn [Meta] in Hm; subst meta;
    unfold Clone; cbn; now rewrite fold_insert_map_to_list.
Qed.

Lemma entry_size_exact (k v : string) :
  N.of_nat (String.length k + String.length v) < 2 ^ 63 ->
  uint_wrap (int_add (strlen k) (strlen v)) = N.of_nat (String.length k + String.length v).
Proof.
  intros Hb. unfold_machine.
  assert (H63 : (2 ^ 63 = 9223372036854775808)%Z) by reflexivity.
  assert (H64 : (2 ^ 64 = 18446744073709551616)%Z) by reflexivity.
  assert (N63 : 2 ^ 63 = 9223372036854775808) by reflexivity.
  rewrite N63 in Hb. rewrite H63, H64.
  set (a := String.length k) in *. set (b := String.length v) in *.
  replace ((Z.of_nat a + Z.of_nat b + 9223372036854775808)
             mod 18446744073709551616 - 9223372036854775808)%Z
    with (Z.of_nat a + Z.of_nat b)%Z.
  2:{ rewrite Z.mod_small; lia. }
  rewrite Z.mod_small by lia. lia.
Qed.

Lemma fold_metaBytes_step_mod (l : list (string * string)) :
  Forall (fun kv => N.of_nat (String.length kv.1 + String.length kv.2) < 2 ^ 63) l ->
  forall acc,
    acc < 2 ^ 64 ->
    fold_left metaBytes_step l acc
    = (acc + fold_right
               (fun kv a => N.of_nat (String.length kv.1 + String.length kv.2) + a) 0 l)
      mod 2 ^ 64.
Proof.
  induction 1 as [|[k v] l Hkv _ IH]; intros acc Hacc.
  - cbn [fold_left fold_right]. rewrite N.add_0_r. symmetry. now apply N.mod_small.
  - cbn [fold_left fold_right fst snd] in *.
    unfold metaBytes_step at 2. cbn [fst snd].
    rewrite (entry_size_exact k v Hkv). unfold uint_add.
    rewrite IH by (apply N.mod_lt; discriminate).
    rewrite N.Div0.add_mod_idemp_l. f_equal. lia.
Qed.

(** X5. When no single entry of the metadata is longer than an int holds,
    the size that StaticValidate compares with the limit is the total
    length of the keys and values modulo 2^64. *)
Theorem metaBytes_wraps (m : gomap string) :
  map_Forall
    (fun k v => N.of_nat (String.length k + String.length v) < 2 ^ 63) (default ∅ m) ->
  metaBytes m = meta_size m mod 2 ^ 64.
Proof.
  intros Hm. apply map_Forall_to_list in Hm.
  unfold metaBytes, meta_size.
  change (fold_left metaBytes_step (map_to_list (default ∅ m)) 0
          = fold_right
              (fun kv a => N.of_nat (String.length kv.1 + String.length kv.2) + a) 0
              (map_to_list (default ∅ m)) mod 2 ^ 64).
  rewrite fold_metaBytes_step_mod; [reflexivity | | reflexivity].
  eapply Forall_impl; [exact Hm |]. intros [k v]. exact id.
Qed.

End ValidatedKeys.

Lemma validated_key_has_ID_witness :
  tka.ID named_key = (tka.Public named_key, None)
  /\ tka.Ed25519 named_key = (tka.Public named_key, None)
  /\ tka.MustID named_key = Returned (tka.Public named_key).
Proof. apply (validated_key_has_ID named_key). vm_compute. reflexivity. Defined.

Lemma metaBytes_order_independent_witness :
  fold_left metaBytes_step [("name", "laptop"); ("owner", "ops")] 0
  = tka.metaBytes (Some (<["name" := "laptop"]> (<["owner" := "ops"]> ∅))).
Proof.
  apply (metaBytes_order_independent
           (<["name" := "laptop"]> (<["owner" := "ops"]> ∅))
           [("name", "laptop"); ("owner", "ops")]).
  vm_compute. apply perm_swap.
Defined.

Lemma Clone_order_independent_witness :
  tka.Meta (tka.Clone named_key)
  = Some (fold_left (fun acc kv => <[kv.1 := kv.2]> acc)
            [("name", "laptop"); ("owner", "ops")] ∅).
Proof.
  apply (Clone_order_independent named_key
           (<["name" := "laptop"]> (<["owner" := "ops"]> ∅))
           [("name", "laptop"); ("owner", "ops")]).
  - reflexivity.
  - vm_compute. apply perm_swap.
Defined.

Lemma metaBytes_wraps_witness :
  tka.metaBytes (tka.Meta named_key) = meta_size (tka.Meta named_key) mod 2 ^ 64.
Proof.
  apply (metaBytes_wraps (tka.Meta named_key)).
  apply map_Forall_insert_2; [reflexivity |].
  apply map_Forall_insert_2; [reflexivity |].
  apply map_Forall_empty.
Defined.

(** * Further properties of the JSON forms *)

Section KeyIDText.

(** X6. A successful UnmarshalJSON of a key identifier or of a public key
    leaves a slice that is not nil, and a failed one leaves the receiver
    as it was. *)
Theorem UnmarshalJSON_outcome (k0 : slice byte) (b : json.Value) :
  ((tkatype.UnmarshalJSON k0 b).2 = None -> (tkatype.UnmarshalJSON k0 b).1 <> None)
  /\ ((tkatype.UnmarshalJSON k0 b).2 <> None -> (tkatype.UnmarshalJSON k0 b).1 = k0)
  /\ ((tka.jsonPublicKey_UnmarshalJSON k0 b).2 = None ->
      (tka.jsonPublicKey_UnmarshalJSON k0 b).1 <> None)
  /\ ((tka.jsonPublicKey_UnmarshalJSON k0 b).2 <> None ->
      (tka.jsonPublicKey_UnmarshalJSON k0 b).1 = k0).
Proof.
  change (tka.jsonPublicKey_UnmarshalJSON k0 b) with (tkatype.UnmarshalJSON k0 b).
  assert (H : ((tkatype.UnmarshalJSON k0 b).2 = None ->
               (tkatype.UnmarshalJSON k0 b).1 <> None)
              /\ ((tkatype.UnmarshalJSON k0 b).2 <> None ->
                  (tkatype.UnmarshalJSON k0 b).1 = k0)).
  { unfold tkatype.UnmarshalJSON.
    destruct b as [| ? | ? | s | ? | ?]; cbn [json.Unmarshal_string fst snd];
      try (split; [discriminate | reflexivity]).
    - split; [discriminate | congruence].
    - destruct (HasPrefix s "tlpub:"); cbn [negb fst snd];
        [| split; [discriminate | reflexivity]].
      unfold hex.DecodeString.
      destruct (hex.Decode _) as [dst [e|]]; cbn [fst snd];
        split; try discriminate; try reflexivity; congruence. }
  tauto.
Qed.

Lemma decode_upper_digits_of_byte (b : byte) :
  hex.fromHexChar (upper_hex_digit (Byte.to_N b / 16)) = Some (Byte.to_N b / 16)
  /\ hex.fromHexChar (upper_hex_digit (Byte.to_N b mod 16)) = Some (Byte.to_N b mod 16)
  /\ hex.mkbyte (Byte.to_N b / 16) (Byte.to_N b mod 16) = b.
Proof. destruct b; repeat split; reflexivity. Qed.

Lemma Decode_upper_hex (l : list byte) : hex.Decode (upper_hex l) = (l, None).
Proof.
  induction l as [|b l IH]; [reflexivity |].
  cbn [upper_hex hex.Decode].
  destruct (decode_upper_digits_of_byte b) as (-> & -> & ->).
  rewrite IH. reflexivity.
Qed.

(** X7. UnmarshalJSON reads hexadecimal digits of either case: the
    upper-case text of a byte sequence decodes to the same bytes as the
    lower-case text that MarshalJSON writes. *)
Theorem UnmarshalJSON_upper_case (k0 : slice byte) (l : list byte) :
  tkatype.UnmarshalJSON k0 (json.Str ("tlpub:" +:+ upper_hex l)) = (Some l, None)
  /\ tkatype.UnmarshalJSON k0 (json.Str ("tlpub:" +:+ lower_hex l)) = (Some l, None)
  /\ tka.jsonPublicKey_UnmarshalJSON k0 (json.Str ("tlpub:" +:+ upper_hex l))
     = (Some l, None).
Proof.
  assert (Hu : tkatype.UnmarshalJSON k0 (json.Str ("tlpub:" +:+ upper_hex l))
               = (Some l, None)).
  { unfold tkatype.UnmarshalJSON. cbn [json.Unmarshal_string].
    destruct (tlpub_prefix (upper_hex l)) as [-> ->]. cbn [negb].
    unfold hex.DecodeString. rewrite Decode_upper_hex. reflexivity. }
  repeat split; [exact Hu | apply KeyID_Unmarshal_tlpub | exact Hu].
Qed.

(** Strings two characters at a time. *)
Lemma string_pair_ind (P : string -> Prop) :
  P EmptyString ->
  (forall c, P (String c EmptyString)) ->
  (forall a b t, P t -> P (String a (String b t))) ->
  forall s, P s.
Proof.
  intros H0 H1 H2.
  assert (H : forall s, P s /\ forall c, P (String c s)).
  { induction s as [|a s [IHs IHc]]; split; auto. }
  intros s. apply H.
Qed.

Lemma fromHexChar_is_hex_digit (c : ascii) :
  is_hex_digit c = true <-> hex.fromHexChar c <> None.
Proof.
  unfold is_hex_digit, hex.fromHexChar. cbv zeta.
  destruct ((48 <=? N_of_ascii c) && (N_of_ascii c <=? 57));
    [cbn; split; [discriminate | reflexivity] |].
  destruct ((97 <=? N_of_ascii c) && (N_of_ascii c <=? 102));
    [cbn; split; [discriminate | reflexivity] |].
  destruct ((65 <=? N_of_ascii c) && (N_of_ascii c <=? 70));
    cbn; split; try discriminate; try reflexivity. congruence.
Qed.

Lemma Decode_ok_iff (h : string) :
  (hex.Decode h).2 = None <-> Nat.Even (String.length h) /\ all_hex h = true.
Proof.
  induction h as [| c | a b t IH] using string_pair_ind.
  - cbn. split; [intros _; split; [exists 0%nat; reflexivity | reflexivity] | reflexivity].
  - cbn [hex.Decode]. split.
    + destruct (hex.fromHexChar c); discriminate.
    + intros [[n Hn] _]. cbn in Hn. lia.
  - cbn [hex.Decode all_hex String.length].
    pose proof (fromHexChar_is_hex_digit a) as Ha.
    pose proof (fromHexChar_is_hex_digit b) as Hb.
    destruct (hex.fromHexChar a) as [x|].
    2:{ cbn [snd]. split; [discriminate |]. intros [_ Hh].
        apply andb_prop in Hh as [Hh _]. apply Ha in Hh. congruence. }
    destruct (hex.fromHexChar b) as [y|].
    2:{ cbn [snd]. split; [discriminate |]. intros [_ Hh].
        apply andb_prop in Hh as [_ Hh]. apply andb_prop in Hh as [Hh _].
        apply Hb in Hh. congruence. }
    destruct (hex.Decode t) as [dst err]. cbn [snd] in *.
    replace (is_hex_digit a) with true by (symmetry; apply Ha; discriminate).
    replace (is_hex_digit b) with true by (symmetry; apply Hb; discriminate).
    cbn [andb]. rewrite IH. split; intros [He Hh]; (split; [| exact Hh]).
    + destruct He as [n Hn]. exists (S n). lia.
    + destruct He as [n Hn]. exists (pred n). lia.
Qed.

Lemma prefix_split (p : string) : forall s,
  String.prefix p s = true ->
  s = p +:+ String.substring (String.length p) (String.length s - String.length p) s.
Proof.
  induction p as [|a p IH]; intros s Hp.
  - cbn. rewrite Nat.sub_0_r. symmetry. apply substring_all.
  - destruct s as [|b s]; [discriminate |].
    cbn [String.prefix] in Hp. destruct (ascii_dec a b) as [-> |]; [| discriminate].
    change (String b p +:+ ?x) with (String b (p +:+ x)).
    cbn [String.length String.substring Nat.sub]. f_equal. apply IH, Hp.
Qed.

(** X8. UnmarshalJSON accepts a JSON string exactly when it is "tlpub:"
    followed by an even number of hexadecimal digits of either case. *)
Theorem UnmarshalJSON_accepts (k0 : slice byte) (s : string) :
  (tkatype.UnmarshalJSON k0 (json.Str s)).2 = None <->
  exists h, s = "tlpub:" +:+ h /\ Nat.Even (String.length h) /\ all_hex h = true.
Proof.
  unfold tkatype.UnmarshalJSON. cbn [json.Unmarshal_string]. split.
  - destruct (HasPrefix s "tlpub:") eqn:Hp; cbn [negb]; [| discriminate].
    unfold HasPrefix in Hp. apply prefix_split in Hp.
    unfold string_from, hex.DecodeString.
    set (h := String.substring (String.length "tlpub:")
                (String.length s - String.length "tlpub:") s) in *.
    intros Hd. exists h. split; [exact Hp |]. apply Decode_ok_iff.
    destruct (hex.Decode h) as [dst [e|]]; [discriminate | reflexivity].
  - intros (h & -> & Hh). destruct (tlpub_prefix h) as [-> ->]. cbn [negb].
    apply Decode_ok_iff in Hh. unfold hex.DecodeString.
    destruct (hex.Decode h) as [dst [e|]]; [discriminate | reflexivity].
Qed.

(** X9. The JSON form tells key identifiers apart by their bytes: two
    identifiers have the same JSON form exactly when they hold the same
    bytes, a nil and an empty one being told apart by nothing. *)
Theorem MarshalJSON_injective (k1 k2 : slice byte) :
  tkatype.MarshalJSON k1 = tkatype.MarshalJSON k2 <-> default [] k1 = default [] k2.
Proof.
  split.
  - intros Heq.
    destruct (KeyID_roundtrip k1) as (v1 & Hm1 & Hu1).
    destruct (KeyID_roundtrip k2) as (v2 & Hm2 & Hu2).
    rewrite Heq, Hm2 in Hm1. injection Hm1 as <-.
    specialize (Hu1 None). rewrite (Hu2 None) in Hu1.
    unfold decoded_slice in Hu1. congruence.
  - intros Heq. unfold tkatype.MarshalJSON, len. now rewrite Heq.
Qed.

End KeyIDText.

Lemma UnmarshalJSON_outcome_witness :
  (tkatype.UnmarshalJSON None (json.Str "tlpub:")).1 <> None
  /\ (tkatype.UnmarshalJSON (Some [x01]) (json.Number "7")).1 = Some [x01]
  /\ (tka.jsonPublicKey_UnmarshalJSON None json.Null).1 <> None
  /\ (tka.jsonPublicKey_UnmarshalJSON (Some [x01]) (json.Str "0101")).1 = Some [x01].
Proof.
  split; [| split; [| split]].
  - apply (proj1 (UnmarshalJSON_outcome None (json.Str "tlpub:"))). reflexivity.
  - apply (proj1 (proj2 (UnmarshalJSON_outcome (Some [x01]) (json.Number "7")))).
    discriminate.
  - apply (proj1 (proj2 (proj2 (UnmarshalJSON_outcome None json.Null)))). reflexivity.
  - apply (proj2 (proj2 (proj2 (UnmarshalJSON_outcome (Some [x01]) (json.Str "0101"))))).
    discriminate.
Defined.

Section KeyJSON.

Import tka.

Lemma append_char_inj (c : ascii) (d1 : string) : forall d2,
  d1 +:+ String c EmptyString = d2 +:+ String c EmptyString -> d1 = d2.
Proof.
  induction d1 as [|a d1 IH]; intros [|b d2] Heq; cbv [append] in Heq;
    fold append in Heq.
  - reflexivity.
  - injection Heq as _ Heq. destruct d2; discriminate.
  - injection Heq as _ Heq. destruct d1; discriminate.
  - injection Heq as -> Heq. f_equal. apply IH. exact Heq.
Qed.

Lemma decimal_inj (n1 n2 : N) : decimal n1 = decimal n2 -> n1 = n2.
Proof.
  unfold decimal. intros Heq.
  apply (f_equal NilZero.uint_of_string) in Heq.
  rewrite !NilZero.usu in Heq by apply to_uint_nonnil.
  injection Heq as Heq. now apply DecimalN.Unsigned.to_uint_inj.
Qed.

Lemma KeyKind_text_other (b : string) (k0 : KeyKind) :
  b <> "invalid" -> b <> "25519" ->
  KeyKind_UnmarshalText k0 b
  = (k0, Some (Errorf "unrecognised key kind: %q" [ArgString b])).
Proof.
  intros H0 H1. unfold KeyKind_UnmarshalText.
  change (KeyKind_String KeyInvalid) with "invalid".
  change (KeyKind_String Key25519) with "25519".
  destruct (String.eqb_spec b "invalid"); [contradiction |].
  destruct (String.eqb_spec b "25519"); [contradiction | reflexivity].
Qed.

(** X10. String tells the kinds apart: two kinds with the same text are
    the same kind. *)
Theorem KeyKind_String_injective (k1 k2 : KeyKind) :
  KeyKind_String k1 = KeyKind_String k2 -> k1 = k2.
Proof.
  unfold KeyKind_String.
  destruct (N.eqb_spec k1 KeyInvalid) as [-> | H1];
    destruct (N.eqb_spec k2 KeyInvalid) as [-> | H2]; try reflexivity.
  - destruct (N.eqb_spec k2 Key25519) as [-> |]; discriminate.
  - destruct (N.eqb_spec k1 Key25519) as [-> |]; discriminate.
  - destruct (N.eqb_spec k1 Key25519) as [-> | H1'];
      destruct (N.eqb_spec k2 Key25519) as [-> | H2'];
      try reflexivity; try discriminate.
    intros Heq. cbv [append] in Heq. fold append in Heq.
    injection Heq as Heq. apply decimal_inj. exact (append_char_inj _ _ _ Heq).
Qed.

Lemma uint_digits_ascii (d : Decimal.uint) : is_ascii (NilEmpty.string_of_uint d) = true.
Proof. induction d; cbn; auto. Qed.

Lemma decimal_ascii (n : N) : is_ascii (decimal n) = true.
Proof.
  unfold decimal, NilZero.string_of_uint.
  destruct (N.to_uint n); try reflexivity; apply (uint_digits_ascii (_ _)).
Qed.

Lemma is_ascii_app (s1 s2 : string) :
  is_ascii s1 = true -> is_ascii s2 = true -> is_ascii (s1 +:+ s2) = true.
Proof.
  intros H1 H2. induction s1 as [|c s1 IH]; [exact H2 |].
  change (String c s1 +:+ s2) with (String c (s1 +:+ s2)).
  cbn [is_ascii] in *. apply andb_prop in H1 as [Hc H1].
  rewrite Hc. cbn [andb]. apply IH, H1.
Qed.

Lemma KeyKind_String_valid (k : KeyKind) : json.coerce (KeyKind_String k) = KeyKind_String k.
Proof.
  apply coerce_valid, ascii_valid. unfold KeyKind_String.
  destruct (k =? KeyInvalid); [reflexivity |].
  destruct (k =? Key25519); [reflexivity |].
  apply (is_ascii_app "Key?<"); [reflexivity |].
  apply is_ascii_app; [apply decimal_ascii | reflexivity].
Qed.

(** X11. A key whose kind has no text form of its own does not come back
    from its JSON form: MarshalJSON writes it, and UnmarshalJSON answers
    what was written with the error "unrecognised key kind" and leaves
    the receiver as it was. *)
Theorem JSON_unrecognized_kind (k k0 : Key) :
  ~ recognized (Kind k) ->
  exists v,
    MarshalJSON k = (Some v, None)
    /\ UnmarshalJSON k0 v
       = (k0, Some (Errorf "unrecognised key kind: %q"
                      [ArgString ("Key?<" +:+ decimal (Kind k) +:+ ">")])).
Proof.
  intros Hk. unfold recognized in Hk.
  assert (H0 : Kind k <> KeyInvalid) by tauto.
  assert (H1 : Kind k <> Key25519) by tauto.
  destruct k as [kind votes public meta]. cbn [Kind] in *.
  assert (HP : exists vP, jsonPublicKey_MarshalJSON public = (Some vP, None)).
  { destruct (jsonPublicKey_roundtrip public) as (vP & HvP & _). eauto. }
  assert (HM : exists vM, json.Marshal_map meta = (Some vM, None)).
  { destruct meta; eexists; reflexivity. }
  destruct HP as [vP HP], HM as [vM HM].
  eexists. split.
  - unfold MarshalJSON. cbn [iKind iVotes iPublic iMeta Kind Votes Public Meta].
    rewrite HP, HM. unfold KeyKind_MarshalText, json.Marshal_text, json.Marshal_string.
    rewrite KeyKind_String_valid, (KeyKind_String_other kind H0 H1). reflexivity.
  - unfold UnmarshalJSON, json.Unmarshal_struct.
    cbn [fold_left fst snd]. rewrite (proj1 field_indexes).
    cbn [store_field iKind json.Unmarshal_text].
    rewrite (KeyKind_text_other ("Key?<" +:+ decimal kind +:+ ">") 0) by discriminate.
    reflexivity.
Qed.

(** X12. UnmarshalJSON of a key is all or nothing: when it fails the
    receiver is as it was, and when it succeeds all four fields are those
    of the JSON value, whatever the receiver held before. *)
Theorem UnmarshalJSON_all_or_nothing (k0 k1 : Key) (b : json.Value) :
  (UnmarshalJSON k0 b).2 = (UnmarshalJSON k1 b).2
  /\ ((UnmarshalJSON k0 b).2 <> None -> (UnmarshalJSON k0 b).1 = k0)
  /\ ((UnmarshalJSON k0 b).2 = None -> (UnmarshalJSON k0 b).1 = (UnmarshalJSON k1 b).1).
Proof.
  unfold UnmarshalJSON.
  destruct (json.Unmarshal_struct intermediate_fields store_field b
              (mkIntermediate 0 0 None None)) as [x [e|]]; cbn [fst snd].
  - repeat split; congruence.
  - repeat split; congruence.
Qed.

End KeyJSON.

Lemma JSON_unrecognized_kind_witness :
  exists v,
    tka.MarshalJSON (tka.mkKey 7 1 (Some [x01; x01]) None) = (Some v, None)
    /\ tka.UnmarshalJSON fixture_key v
       = (fixture_key, Some (Errorf "unrecognised key kind: %q" [ArgString "Key?<7>"])).
Proof.
  apply (JSON_unrecognized_kind (tka.mkKey 7 1 (Some [x01; x01]) None) fixture_key).
  intros [H | H]; vm_compute in H; discriminate.
Defined.

Lemma UnmarshalJSON_all_or_nothing_witness :
  (tka.UnmarshalJSON named_key (json.Number "7")).1 = named_key
  /\ (tka.UnmarshalJSON named_key json.Null).1 = (tka.UnmarshalJSON fixture_key json.Null).1.
Proof.
  split.
  - apply (proj1 (proj2 (UnmarshalJSON_all_or_nothing named_key fixture_key
                           (json.Number "7")))). discriminate.
  - apply (proj2 (proj2 (UnmarshalJSON_all_or_nothing named_key fixture_key json.Null))).
    reflexivity.
Defined.

(** * Further properties of the JSON printer *)

Section PrinterRuns.

Import jsonoutput.

Context {W : Type} `{Writer W}.
Context {AUM : Type} (zeroAUM : AUM).
Context (Unserialize : AUM -> slice byte -> AUM * error).
Context (AUM_Hash : AUM -> list byte).
Context (base64 : slice byte -> string).
Context (MarshalIndent : string -> list (@logMessageV1 AUM) -> list byte * error).

Let printV1 := printNetworkLockJSONV1 zeroAUM Unserialize AUM_Hash base64 MarshalIndent.
Let check := check_updates zeroAUM Unserialize AUM_Hash base64.
Let accepted := accepted zeroAUM Unserialize AUM_Hash.
Let message_of := message_of zeroAUM Unserialize AUM_Hash base64.
Let Encode := @Encode W _ AUM MarshalIndent.

(** The loop over a run of accepted updates stores their messages in the
    slots that follow the ones already filled, and goes on with the
    updates that remain. *)
Lemma check_updates_accepted (good : list NetworkLockUpdate) :
  Forall accepted good ->
  forall rest done zs zs',
    length zs = length good ->
    check (length done) (good ++ rest) (done ++ zs ++ zs')
    = check (length done + length good) rest ((done ++ map message_of good) ++ zs').
Proof.
  unfold check.
  induction 1 as [|update good Hacc _ IH]; intros rest done zs zs' Hlen.
  - destruct zs; [| discriminate]. cbn [app map length].
    rewrite Nat.add_0_r, app_nil_r. reflexivity.
  - destruct zs as [|z0 zs]; [discriminate |]. injection Hlen as Hlen.
    destruct Hacc as [Hdec Hhash].
    cbn [app check_updates].
    destruct (Unserialize zeroAUM (Raw update)) as [aum err] eqn:Hun.
    cbn [fst snd] in Hdec, Hhash. subst err.
    rewrite (proj2 (bytes_Equal_eq _ _) Hhash). cbn [negb].
    rewrite insert_app_r_alt by lia. rewrite Nat.sub_diag. cbn [insert list_insert].
    assert (Hmsg : mkLogMessageV1 (AUM_Hash aum) aum (base64 (Raw update))
                   = message_of update)
      by (unfold message_of, jsonoutput.message_of; now rewrite Hun).
    rewrite Hmsg.
    replace (done ++ message_of update :: zs ++ zs')
      with ((done ++ [message_of update]) ++ zs ++ zs')
      by (rewrite <- app_assoc; reflexivity).
    replace (S (length done)) with (length (done ++ [message_of update]))
      by (rewrite length_app; cbn; lia).
    rewrite (IH rest (done ++ [message_of update]) zs zs' Hlen).
    cbn [map length]. rewrite length_app. cbn [length].
    rewrite <- !app_assoc. cbn [app].
    replace (length done + 1 + length good)%nat with (length done + S (length good))%nat
      by lia.
    reflexivity.
Qed.

(** X13. When every update decodes to an AUM whose hash is the stated
    one, the V1 printer encodes one message for each update, in the order
    of the updates, under the schema version "1"; an empty list gives an
    empty list of messages. *)
Theorem printNetworkLockJSONV1_accepted (out : W) (updates : list NetworkLockUpdate) :
  Forall accepted updates ->
  printV1 out updates = Encode out "1" (map message_of updates).
Proof.
  intros Hall. unfold printV1, printNetworkLockJSONV1.
  pose proof (check_updates_accepted updates Hall [] []
                (replicate (length updates) (zeroMessage zeroAUM)) []
                (length_replicate _ _)) as Hc.
  unfold check in Hc. cbn [app length check_updates] in Hc.
  rewrite !app_nil_r in Hc. rewrite Hc. reflexivity.
Qed.

(** X14. The V1 printer reports the first update that it rejects: after a
    run of accepted updates, an update that does not decode gives the
    error "decoding" that wraps the decoder's error, and one whose AUM has
    another hash than the stated one gives the error "incorrect AUM hash";
    in both cases nothing is written, whatever the updates that follow. *)
Theorem printNetworkLockJSONV1_first_rejected (out : W)
    (good rest : list NetworkLockUpdate) (bad : NetworkLockUpdate) :
  Forall accepted good ->
  (forall err,
     (Unserialize zeroAUM (Raw bad)).2 = Some err ->
     printV1 out (good ++ bad :: rest)
     = (out, Some (ErrorfWrap "decoding: %w" [] err)))
  /\ ((Unserialize zeroAUM (Raw bad)).2 = None ->
      AUM_Hash (Unserialize zeroAUM (Raw bad)).1 <> Hash bad ->
      printV1 out (good ++ bad :: rest)
      = (out, Some (Errorf "incorrect AUM hash: got %v, want %v"
                      [ArgBytes (AUM_Hash (Unserialize zeroAUM (Raw bad)).1);
                       ArgUpdate (Hash bad) (Change bad) (Raw bad)]))).
Proof.
  intros Hall.
  assert (Hc : check_updates zeroAUM Unserialize AUM_Hash base64 0 (good ++ bad :: rest)
                 (replicate (length (good ++ bad :: rest)) (zeroMessage zeroAUM))
               = check_updates zeroAUM Unserialize AUM_Hash base64 (length good)
                   (bad :: rest)
                   (map message_of good
                    ++ replicate (S (length rest)) (zeroMessage zeroAUM))).
  { rewrite length_app. cbn [length]. rewrite replicate_add.
    exact (check_updates_accepted good Hall (bad :: rest) []
             (replicate (length good) (zeroMessage zeroAUM))
             (replicate (S (length rest)) (zeroMessage zeroAUM))
             (length_replicate _ _)). }
  unfold printV1, printNetworkLockJSONV1. rewrite Hc. cbn [check_updates]. split.
  - intros err Herr.
    destruct (Unserialize zeroAUM (Raw bad)) as [aum e]. cbn [snd] in Herr. subst e.
    reflexivity.
  - intros Hdec Hhash.
    destruct (Unserialize zeroAUM (Raw bad)) as [aum e]. cbn [fst snd] in *. subst e.
    destruct (bytes_Equal (AUM_Hash aum) (Hash bad)) eqn:Heq; [| reflexivity].
    apply bytes_Equal_eq in Heq. contradiction.
Qed.

End PrinterRuns.

Lemma printNetworkLockJSONV1_accepted_witness :
  jsonoutput.printNetworkLockJSONV1 [] sample_Unserialize sample_Hash
    (fun _ => EmptyString) sample_Marshal [x2a] [good_update; good_update]
  = jsonoutput.Encode sample_Marshal [x2a] "1"
      (map (jsonoutput.message_of [] sample_Unserialize sample_Hash (fun _ => EmptyString))
         [good_update; good_update]).
Proof.
  apply (printNetworkLockJSONV1_accepted [] sample_Unserialize sample_Hash
           (fun _ => EmptyString) sample_Marshal [x2a] [good_update; good_update]).
  repeat constructor.
Defined.

Lemma printNetworkLockJSONV1_first_rejected_witness :
  jsonoutput.printNetworkLockJSONV1 [] sample_Unserialize sample_Hash
    (fun _ => EmptyString) sample_Marshal [x2a]
    ([good_update] ++ undecodable_update :: [good_update])
  = ([x2a], Some (ErrorfWrap "decoding: %w" [] (ExternalError 1)))
  /\ jsonoutput.printNetworkLockJSONV1 [] sample_Unserialize sample_Hash
       (fun _ => EmptyString) sample_Marshal [x2a]
       ([good_update] ++ bad_hash_update :: [undecodable_update])
     = ([x2a], Some (Errorf "incorrect AUM hash: got %v, want %v"
                       [ArgBytes [x03]; ArgUpdate [x09] "remove-key" (Some [x03; x04])])).
Proof.
  split.
  - apply (proj1 (printNetworkLockJSONV1_first_rejected [] sample_Unserialize
                    sample_Hash (fun _ => EmptyString) sample_Marshal [x2a]
                    [good_update] [good_update] undecodable_update
                    ltac:(repeat constructor))).
    reflexivity.
  - apply (proj2 (printNetworkLockJSONV1_first_rejected [] sample_Unserialize
                    sample_Hash (fun _ => EmptyString) sample_Marshal [x2a]
                    [good_update] [undecodable_update] bad_hash_update
                    ltac:(repeat constructor))).
    + reflexivity.
    + vm_compute. discriminate.
Defined.

Lemma KeyKind_String_injective_witness : (7 : KeyKind) = 7.
Proof. apply (KeyKind_String_injective 7 7). reflexivity. Defined.
